(** * echo-openapi: the validation pipeline, embedded and verified

    The repository is an Echo middleware ([openapi.go]) and a response
    helper ([handler.go]) built on kin-openapi.  Both files are present in
    two revisions:

    - [openapi.go], first revision: [src/openapi.go]            ([OpenapiA]);
    - [openapi.go], second revision: [src/handler_test.go:143-395] ([OpenapiB]);
    - [handler.go], first revision: [src/handler.go:1-120]      ([HandlerA]);
    - [handler.go], second revision: [src/handler.go:121-281]   ([HandlerB]).

    Go values are modelled as the code observes them: an [error] by its
    dynamic type and the fields the type switches read, a [map] as a [gmap],
    the [echo.Context] as an explicit state that every handler threads, and
    the collaborators outside the repository (kin-openapi, encoding/json,
    the Echo response writer) as a record of functions, [Libs], over which
    every statement is universally quantified. *)

From stdpp Require Import gmap strings list sorting.
From Stdlib Require Import ZArith Ascii.

Set Warnings "-register-all".
Local Open Scope Z_scope.

(** ** Values of the libraries *)

Module openapi3.
(** [openapi3.Parameter] (the name is a reserved word here): the two fields
    [convertError] reads. *)
Record Param : Type := { Name : string; In : string }.
(** [openapi3.RequestBody]: only compared with [nil]. *)
Record RequestBody : Type := { Required : bool }.
(** [*openapi3.T], the loaded document: an opaque handle. *)
Inductive T : Type := Doc (id : nat).
End openapi3.

Module routers.
(** [routers.Router] and [*routers.Route]: opaque handles. *)
Inductive Router : Type := RouterOf (id : nat).
Inductive Route : Type := RouteOf (id : nat).
End routers.

(** A Go [error] value: its dynamic type with the fields and method results
    the repository reads.  [Err] fields are interfaces and may be [nil]
    ([None]).  [ErrPathNotFound] and [ErrMethodNotAllowed] are the two
    sentinel values of package [routers]; [errorString] is what [fmt.Errorf]
    and [errors.New] build; [otherError] is any other error value. *)
Inductive error : Type :=
| SchemaError (JSONPointer : list string) (Reason : string)
| RequestError (Param : option openapi3.Param)
    (RequestBody : option openapi3.RequestBody) (Reason : string)
    (Err : option error)
| ResponseError (Reason : string) (Err : option error)
| MultiError (errs : list error)
| ErrPathNotFound
| ErrMethodNotAllowed
| HTTPError (Code : Z) (Message : string)
| errorString (s : string)
| otherError (id : nat).

(** [[]byte] *)
Abbreviation bytes := string (only parsing).

(** A Go [any] handed to [Validate]: the dynamic types the code switches
    on, and everything else. *)
Inductive any : Type :=
| any_string (s : string)
| any_bytes (b : bytes)
| any_value (id : nat).

(** ** Strings *)

Definition dquote : Ascii.ascii := "034"%char.
Definition squote : Ascii.ascii := "039"%char.
Definition newline : Ascii.ascii := "010"%char.

(** [strings.Join] *)
Definition Join (elems : list string) (sep : string) : string :=
  String.concat sep elems.

(** [strings.ReplaceAll(s, old, new)] for one-byte [old] and [new]. *)
Fixpoint ReplaceAll (s : string) (old new : Ascii.ascii) : string :=
  match s with
  | EmptyString => EmptyString
  | String a s' =>
      String (if Ascii.eqb a old then new else a) (ReplaceAll s' old new)
  end.

(** [strings.Split(s, sep)[0]] for a one-byte [sep]: what precedes the first
    separator, or all of [s]. *)
Fixpoint Split0 (s : string) (sep : Ascii.ascii) : string :=
  match s with
  | EmptyString => EmptyString
  | String a s' => if Ascii.eqb a sep then EmptyString else String a (Split0 s' sep)
  end.

(** [strings.HasPrefix(s, prefix)] *)
Definition HasPrefix (s prefix : string) : bool := String.prefix prefix s.

(** [sort.Strings]: ascending byte-wise lexicographic order. *)
Definition sort_Strings (names : list string) : list string :=
  merge_sort String.le names.

(** ** The issue map of [convertError] *)

Abbreviation Issues := (gmap string (list string)).

(** [issues[k] = append(issues[k], msgs...)] *)
Definition append_to (issues : Issues) (k : string) (msgs : list string) : Issues :=
  <[k := issues !!! k ++ msgs]> issues.

(** [for k, v := range sub { issues[k] = append(issues[k], v...) }] over one
    enumeration [kvs] of [sub]. *)
Definition merge_range (issues : Issues) (kvs : list (string * list string)) : Issues :=
  foldl (λ acc kv, append_to acc kv.1 kv.2) issues kvs.

(** [for k := range issues { names = append(names, k) }] *)
Definition range_keys (issues : Issues) : list string := (map_to_list issues).*1.

(** The two nested loops that flatten the map along [names]. *)
Definition flatten (issues : Issues) (names : list string) : list string :=
  mjoin ((λ k, issues !!! k) <$> names).

(** What the merging loop amounts to: the lists of a shared key are
    concatenated, those of [m1] first. *)
Definition merge (m1 m2 : Issues) : Issues :=
  union_with (λ a b, Some (a ++ b)) m1 m2.

(** The names are collected in iteration order, sorted, and the message
    lists concatenated along the sorted names (src/openapi.go:106-117; the
    same loops are in the second revision of openapi.go and in the second
    revision of handler.go). *)
Definition sorted_messages (issues : Issues) (names : list string) : list string :=
  flatten issues (sort_Strings names).

(** [check] walks the exemption table; [range] enumerates it in some order. *)
Fixpoint method_in (method : string) (v : list string) : bool :=
  match v with
  | [] => false
  | i :: v' => if String.eqb method i then true else method_in method v'
  end.

Fixpoint check_range (path method : string) (kvs : list (string * list string)) : bool :=
  match kvs with
  | [] => false
  | (k, v) :: kvs' =>
      if String.eqb k path
      then (if method_in method v then true else check_range path method kvs')
      else check_range path method kvs'
  end.

Definition check (path method : string) (m : gmap string (list string)) : bool :=
  check_range path method (map_to_list m).

(** ** Requests, validation inputs and the Echo context *)

Module http.
(** [*http.Request], as far as the pipeline reads it. *)
Record Request : Type :=
  { Method : string; URL : string; Header : list (string * string); Body : bytes }.
Definition StatusNoContent : Z := 204.
Definition StatusBadRequest : Z := 400.
Definition StatusNotFound : Z := 404.
Definition StatusMethodNotAllowed : Z := 405.
Definition StatusUnprocessableEntity : Z := 422.
End http.

Module openapi3filter.
Inductive AuthenticationFunc : Type := NoopAuthenticationFunc.
Record Options : Type :=
  { ExcludeRequestBody : bool;
    ExcludeResponseBody : bool;
    IncludeResponseStatus : bool;
    MultiError : bool;
    AuthenticationFunc_ : option AuthenticationFunc }.
Record RequestValidationInput : Type :=
  { req_Request : http.Request;
    req_PathParams : gmap string string;
    req_Route : routers.Route;
    req_Options : Options }.
(** [resp_Body] is what [SetBodyBytes] stores. *)
Record ResponseValidationInput : Type :=
  { resp_RequestValidationInput : RequestValidationInput;
    resp_Status : Z;
    resp_Header : list (string * string);
    resp_Options : Options;
    resp_Body : bytes }.
End openapi3filter.

(** [ValidationError], the JSON body of a rejected request (openapi.go). *)
Record ValidationError : Type :=
  { Code : Z; Message : string; Errors : list string }.

(** Every call the repository makes on a collaborator, in the order made. *)
Inductive Call : Type :=
| CallLoadFromFile (location : string)
| CallLoadFromData (data : bytes)
| CallValidate (doc : openapi3.T)
| CallNewRouter (doc : openapi3.T)
| CallFindRoute (r : routers.Router)
| CallValidateRequest (input : openapi3filter.RequestValidationInput)
| CallValidateResponse (input : openapi3filter.ResponseValidationInput)
| CallJSONMarshal (v : any)
| CallXMLMarshal (v : any)
| CallErrorf (msg : string)
| CallDebugf (msg : string)
| CallDebug (msg : string)
| CallGet (key : string)
| CallSet (key : string)
| CallNoContent (code : Z)
| CallBlob (code : Z) (contentType : string) (b : bytes)
| CallJSON (code : Z) (i : ValidationError).

Module echo.
Definition MIMEApplicationJSON : string := "application/json".
Definition MIMETextPlain : string := "text/plain".
(** What [c.Set] stores under a key: the middleware's validation input, or a
    value of any other dynamic type. *)
Inductive Value : Type :=
| ValidationInput (input : openapi3filter.RequestValidationInput)
| OtherValue (id : nat).
(** [c.Response()]: the two fields the handler assigns directly. *)
Record Response : Type := { Status : Z; Header : list (string * string) }.
(** The state behind an [echo.Context]: the matched route pattern, the
    request, the key-value store, the response under construction and the
    calls made so far.  Writing the response ([NoContent], [Blob], [JSON]) is
    Echo's; a write is recorded in [calls] and returns [nil]. *)
Record Context : Type :=
  { Path : string;
    Request : http.Request;
    store : gmap string Value;
    Response_ : Response;
    calls : list Call }.

Definition record (k : Call) (c : Context) : Context :=
  {| Path := Path c; Request := Request c; store := store c;
     Response_ := Response_ c; calls := calls c ++ [k] |}.
Definition Set_ (key : string) (val : Value) (c : Context) : Context :=
  record (CallSet key)
    {| Path := Path c; Request := Request c; store := <[key := val]> (store c);
       Response_ := Response_ c; calls := calls c |}.
Definition Get (key : string) (c : Context) : option Value * Context :=
  (store c !! key, record (CallGet key) c).
Definition record_all (ks : list Call) (c : Context) : Context :=
  foldl (λ c k, record k c) c ks.
Definition set_Status (code : Z) (c : Context) : Context :=
  {| Path := Path c; Request := Request c; store := store c;
     Response_ := {| Status := code; Header := Header (Response_ c) |};
     calls := calls c |}.
(** [c.Response().Header().Add(k, v)] *)
Definition Header_Add (k v : string) (c : Context) : Context :=
  {| Path := Path c; Request := Request c; store := store c;
     Response_ := {| Status := Status (Response_ c);
                     Header := Header (Response_ c) ++ [(k, v)] |};
     calls := calls c |}.
End echo.

(** How a Go call ends: it returns (an [error], possibly [nil], and the
    context as the call left it) or it panics. *)
Inductive Outcome : Type :=
| Return (err : option error) (c : echo.Context)
| Panic (v : string).

Definition HandlerFunc : Type := echo.Context → Outcome.
Definition MiddlewareFunc : Type := HandlerFunc → HandlerFunc.

(** The collaborators outside the repository.  [lib_Error] is the [Error()]
    method of the libraries' error types; [Sprint_s] is [fmt]'s [%s] of a
    value.  [ValidateRequest] is taken as a function of the input it is
    handed: what kin-openapi writes into the request behind that input (the
    defaults of parameters and of the body) is not modelled. *)
Record Libs : Type :=
  { lib_Error : error → string;
    LoadFromFile : string → openapi3.T + error;
    LoadFromData : bytes → openapi3.T + error;
    Validate : openapi3.T → option error;
    NewRouter : openapi3.T → routers.Router + error;
    FindRoute : routers.Router → http.Request →
                (routers.Route * gmap string string) + error;
    ValidateRequest : openapi3filter.RequestValidationInput → option error;
    ValidateResponse : openapi3filter.ResponseValidationInput → option error;
    json_Marshal : any → bytes + error;
    xml_Marshal : any → bytes + error;
    errors_Is : error → error → bool;
    Sprint_s : any → string }.

(** [err.Error()]: an error built by [fmt.Errorf] renders as its text. *)
Definition Error (L : Libs) (err : error) : string :=
  match err with
  | errorString s => s
  | _ => lib_Error L err
  end.

(** [c.NoContent], [c.Blob], [c.JSON], for a write that succeeds: the call
    is recorded and [nil] returned. *)
Definition NoContent (code : Z) (c : echo.Context) : Outcome :=
  Return None (echo.record (CallNoContent code) c).
Definition Blob (code : Z) (contentType : string) (b : bytes) (c : echo.Context) : Outcome :=
  Return None (echo.record (CallBlob code contentType b) c).
Definition JSON (code : Z) (i : ValidationError) (c : echo.Context) : Outcome :=
  Return None (echo.record (CallJSON code i) c).

(** [JSONValidationError] is the same function in both revisions of
    openapi.go. *)
Definition JSONValidationError (c : echo.Context) (status : Z) (msg : string)
    (errors : list string) : Outcome :=
  JSON status {| Code := status; Message := msg; Errors := errors |} c.

(** The [RequestValidationInput] the middleware builds, the same in both
    revisions of openapi.go (first revision, lines 92-100). *)
Definition requestValidationInput (req : http.Request) (route : routers.Route)
    (pathParams : gmap string string) : openapi3filter.RequestValidationInput :=
  {| openapi3filter.req_Request := req;
     openapi3filter.req_PathParams := pathParams;
     openapi3filter.req_Route := route;
     openapi3filter.req_Options :=
       {| openapi3filter.ExcludeRequestBody := false;
          openapi3filter.ExcludeResponseBody := false;
          openapi3filter.IncludeResponseStatus := false;
          openapi3filter.MultiError := true;
          openapi3filter.AuthenticationFunc_ :=
            Some openapi3filter.NoopAuthenticationFunc |} |}.

(** [middleware.DefaultSkipper] *)
Definition DefaultSkipper (c : echo.Context) : bool := false.

(** ** openapi.go, first revision (src/openapi.go) *)

Module OpenapiA.

Record Config : Type :=
  { Skipper : option (echo.Context → bool);
    Schema : string;
    ContextKey : string;
    ExemptRoutes : gmap string (list string) }.

Definition DefaultConfig : Config :=
  {| Skipper := Some DefaultSkipper; Schema := EmptyString;
     ContextKey := "validator"; ExemptRoutes := ∅ |}.

(** One turn of the loop of [convertError] (lines 133-175): [issues] is the
    map built so far.  The message of a schema error is filed under the
    constant key [schema]; a request error that is neither a parameter error
    nor a nested multi-error adds nothing, with or without a request body. *)
Fixpoint convertError_step (L : Libs) (issues : Issues) (err : error) {struct err} : Issues :=
  match err with
  | SchemaError path Reason =>
      let field := if bool_decide (0 < length path)%nat then Join path "." else EmptyString in
      let msg :=
        if bool_decide (0 < String.length field)%nat
        then field +:+ ": " +:+ Reason
        else Reason in
      let msg := ReplaceAll msg dquote squote in
      append_to issues "schema" [msg]
  | RequestError (Some p) _ _ _ =>
      let prefix := openapi3.In p in
      let name := prefix +:+ "." +:+ openapi3.Name p in
      append_to issues name [Error L err]
  | RequestError None RequestBody _ Err =>
      match Err with
      | Some (MultiError errs) =>
          let sub :=
            (fix loop (acc : Issues) (me : list error) {struct me} : Issues :=
               match me with
               | [] => acc
               | e :: me' => loop (convertError_step L acc e) me'
               end) ∅ errs in
          merge_range issues (map_to_list sub)
      | _ =>
          match RequestBody with
          | Some _ => issues
          | None => issues
          end
      end
  | _ => append_to issues "unknown" [Error L err]
  end.

Definition convertError (L : Libs) (me : list error) : Issues :=
  foldl (convertError_step L) ∅ me.

(** The closure returned by [OpenAPIWithConfig] (lines 48-126), after the
    defaults of lines 39-45 were filled in. *)
Definition serve (L : Libs) (skipper : echo.Context → bool) (config : Config)
    (next : HandlerFunc) : HandlerFunc := λ c,
  if skipper c then next c else
  if check (echo.Path c) (http.Method (echo.Request c)) (ExemptRoutes config)
  then next c else
  let c := echo.record (CallLoadFromFile (Schema config)) c in
  match LoadFromFile L (Schema config) with
  | inr err =>
      Return (Some err)
        (echo.record (CallErrorf ("error loading schema file: " +:+ Error L err)) c)
  | inl schema =>
  let c := echo.record (CallValidate schema) c in
  match Validate L schema with
  | Some err =>
      Return (Some err)
        (echo.record (CallErrorf ("error validating schema: " +:+ Error L err)) c)
  | None =>
  let c := echo.record (CallNewRouter schema) c in
  match NewRouter L schema with
  | inr err =>
      Return (Some err)
        (echo.record (CallErrorf ("error creating router: " +:+ Error L err)) c)
  | inl r =>
  let c := echo.record (CallFindRoute r) c in
  match FindRoute L r (echo.Request c) with
  | inr err =>
      let c :=
        echo.record
          (CallDebugf ("error finding route for " +:+ http.URL (echo.Request c)
                       +:+ ": " +:+ Error L err)) c in
      match err with
      | ErrPathNotFound =>
          Return (Some (HTTPError http.StatusNotFound "Path not found")) c
      | ErrMethodNotAllowed =>
          Return (Some (HTTPError http.StatusMethodNotAllowed "Method not allowed")) c
      | _ => Return (Some err) c
      end
  | inl (route, pathParams) =>
  let requestValidationInput :=
    requestValidationInput (echo.Request c) route pathParams in
  let c := echo.record (CallValidateRequest requestValidationInput) c in
  match ValidateRequest L requestValidationInput with
  | None =>
      next (echo.Set_ (ContextKey config)
              (echo.ValidationInput requestValidationInput) c)
  | Some (MultiError err) =>
      let issues := convertError L err in
      let errors := sorted_messages issues (range_keys issues) in
      JSONValidationError c http.StatusUnprocessableEntity "Validation error" errors
  | Some err =>
      JSONValidationError c http.StatusUnprocessableEntity "Validation error"
        [Error L err]
  end end end end end.

(** [OpenAPIWithConfig] itself only fills in the defaults and returns the
    closure: it loads nothing and cannot fail. *)
Definition OpenAPIWithConfig (L : Libs) (config : Config) : MiddlewareFunc :=
  let skipper := default DefaultSkipper (Skipper config) in
  let config :=
    if decide (ContextKey config = EmptyString)
    then {| Skipper := Skipper config; Schema := Schema config;
            ContextKey := ContextKey DefaultConfig;
            ExemptRoutes := ExemptRoutes config |}
    else config in
  serve L skipper config.

Definition OpenAPI (L : Libs) (file : string) : MiddlewareFunc :=
  OpenAPIWithConfig L
    {| Skipper := Skipper DefaultConfig; Schema := file;
       ContextKey := ContextKey DefaultConfig;
       ExemptRoutes := ExemptRoutes DefaultConfig |}.

(** A request that is neither skipped nor exempt, for which the document
    loads, validates and yields the router [r]: it reaches route resolution,
    after the calls [setup_calls]. *)
Definition resolves (L : Libs) (config : Config) (c : echo.Context)
    (schema : openapi3.T) (r : routers.Router) : Prop :=
  default DefaultSkipper (Skipper config) c = false
  ∧ check (echo.Path c) (http.Method (echo.Request c)) (ExemptRoutes config) = false
  ∧ LoadFromFile L (Schema config) = inl schema
  ∧ Validate L schema = None
  ∧ NewRouter L schema = inl r.

Definition setup_calls (config : Config) (schema : openapi3.T) (r : routers.Router)
    : list Call :=
  [CallLoadFromFile (Schema config); CallValidate schema; CallNewRouter schema;
   CallFindRoute r].

End OpenapiA.

(** ** openapi.go, second revision (src/handler_test.go:143-395) *)

Module OpenapiB.

Record Config : Type :=
  { Skipper : option (echo.Context → bool);
    Schema : string;
    SchemaBytes : bytes;
    ContextKey : string;
    ExemptRoutes : gmap string (list string) }.

Definition DefaultConfig : Config :=
  {| Skipper := Some DefaultSkipper; Schema := EmptyString;
     SchemaBytes := EmptyString; ContextKey := "validator"; ExemptRoutes := ∅ |}.

(** What the Go run time reports when a method is called on a [nil]
    interface. *)
Definition nil_dereference : string :=
  "runtime error: invalid memory address or nil pointer dereference".

(** One turn of the loop of [convertError] (lines 318-365).  A schema error
    is filed under its own field path; a parameter error calls
    [err.Err.Error()], which panics ([None]) when [Err] is [nil]; a request
    error with a request body and no nested multi-error is filed under
    [body]. *)
Fixpoint convertError_step (L : Libs) (issues : Issues) (err : error) {struct err}
    : option Issues :=
  match err with
  | SchemaError path Reason =>
      let field := if bool_decide (0 < length path)%nat then Join path "." else EmptyString in
      let msg :=
        if bool_decide (0 < String.length field)%nat
        then field +:+ ": " +:+ Reason
        else Reason in
      let msg := ReplaceAll msg dquote squote in
      Some (append_to issues field [msg])
  | RequestError (Some p) _ _ Err =>
      let prefix := openapi3.In p in
      let name := prefix +:+ "." +:+ openapi3.Name p in
      match Err with
      | None => None
      | Some cause =>
          let split0 := Split0 (Error L cause) newline in
          let msg :=
            "parameter '" +:+ openapi3.Name p +:+ "' in " +:+ prefix
            +:+ " has an error: " +:+ split0 in
          Some (append_to issues name [msg])
      end
  | RequestError None RequestBody _ Err =>
      match Err with
      | Some (MultiError errs) =>
          let sub :=
            (fix loop (acc : Issues) (me : list error) {struct me} : option Issues :=
               match me with
               | [] => Some acc
               | e :: me' =>
                   match convertError_step L acc e with
                   | Some acc' => loop acc' me'
                   | None => None
                   end
               end) ∅ errs in
          match sub with
          | Some sub => Some (merge_range issues (map_to_list sub))
          | None => None
          end
      | _ =>
          match RequestBody with
          | Some _ => Some (append_to issues "body" [Error L err])
          | None => Some issues
          end
      end
  | _ => Some (append_to issues "unknown" [Error L err])
  end.

Fixpoint convertError_loop (L : Libs) (issues : Issues) (me : list error) : option Issues :=
  match me with
  | [] => Some issues
  | err :: me' =>
      match convertError_step L issues err with
      | Some issues' => convertError_loop L issues' me'
      | None => None
      end
  end.

Definition convertError (L : Libs) (me : list error) : option Issues :=
  convertError_loop L ∅ me.

(** The closure returned by [OpenAPIWithConfig] (lines 246-312); [router] is
    the route matcher captured at construction. *)
Definition serve (L : Libs) (skipper : echo.Context → bool) (config : Config)
    (router : routers.Router) (next : HandlerFunc) : HandlerFunc := λ c,
  if skipper c then next c else
  if check (echo.Path c) (http.Method (echo.Request c)) (ExemptRoutes config)
  then next c else
  let c := echo.record (CallFindRoute router) c in
  match FindRoute L router (echo.Request c) with
  | inr err =>
      let c :=
        echo.record
          (CallDebugf ("error finding route for " +:+ http.Method (echo.Request c)
                       +:+ " " +:+ http.URL (echo.Request c)
                       +:+ ": " +:+ Error L err)) c in
      if errors_Is L err ErrPathNotFound
      then Return (Some (HTTPError http.StatusNotFound "Path not found")) c
      else if errors_Is L err ErrMethodNotAllowed
      then Return (Some (HTTPError http.StatusMethodNotAllowed "Method not allowed")) c
      else Return (Some err) c
  | inl (route, pathParams) =>
  let requestValidationInput :=
    requestValidationInput (echo.Request c) route pathParams in
  let c := echo.record (CallValidateRequest requestValidationInput) c in
  match ValidateRequest L requestValidationInput with
  | None =>
      next (echo.Set_ (ContextKey config)
              (echo.ValidationInput requestValidationInput) c)
  | Some (MultiError err) =>
      match convertError L err with
      | None => Panic nil_dereference
      | Some issues =>
          match issues !! "body" with
          | Some val =>
              JSONValidationError c http.StatusBadRequest "Request error" val
          | None =>
              let errs := sorted_messages issues (range_keys issues) in
              JSONValidationError c http.StatusUnprocessableEntity
                "Validation error" errs
          end
      end
  | Some err => Return (Some err) c
  end end.

(** What calling [OpenAPIWithConfig] yields: the middleware, or a panic. *)
Inductive Construction : Type :=
| Built (m : MiddlewareFunc)
| Panicked (v : string).

(** [OpenAPIWithConfig] (lines 206-314): the schema is loaded, validated and
    turned into a router before the closure exists. *)
Definition OpenAPIWithConfig (L : Libs) (config : Config) : Construction :=
  let skipper := default DefaultSkipper (Skipper config) in
  if bool_decide (Schema config = EmptyString)
     && bool_decide (String.length (SchemaBytes config) = 0%nat)
  then Panicked "either schema or schemaBytes is required" else
  let config :=
    if decide (ContextKey config = EmptyString)
    then {| Skipper := Skipper config; Schema := Schema config;
            SchemaBytes := SchemaBytes config;
            ContextKey := ContextKey DefaultConfig;
            ExemptRoutes := ExemptRoutes config |}
    else config in
  let loaded :=
    if bool_decide (0 < String.length (SchemaBytes config))%nat
    then LoadFromData L (SchemaBytes config)
    else LoadFromFile L (Schema config) in
  match loaded with
  | inr err => Panicked ("failed loading schema file: " +:+ Error L err)
  | inl schema =>
  match Validate L schema with
  | Some err => Panicked ("failed validating schema: " +:+ Error L err)
  | None =>
  match NewRouter L schema with
  | inr err => Panicked ("failed creating router: " +:+ Error L err)
  | inl router => Built (serve L skipper config router)
  end end end.

Definition OpenAPI (L : Libs) (file : string) : Construction :=
  OpenAPIWithConfig L
    {| Skipper := Skipper DefaultConfig; Schema := file;
       SchemaBytes := SchemaBytes DefaultConfig;
       ContextKey := ContextKey DefaultConfig;
       ExemptRoutes := ExemptRoutes DefaultConfig |}.

Definition OpenAPIFromBytes (L : Libs) (schemaBytes : bytes) : Construction :=
  OpenAPIWithConfig L
    {| Skipper := Skipper DefaultConfig; Schema := Schema DefaultConfig;
       SchemaBytes := schemaBytes;
       ContextKey := ContextKey DefaultConfig;
       ExemptRoutes := ExemptRoutes DefaultConfig |}.

End OpenapiB.

(** ** handler.go, first revision (src/handler.go:1-120) *)

Module HandlerA.

Definition ApplicationJSON : string := "application/json".
Definition ApplicationXML : string := "application/xml".

Record HandlerConfig : Type :=
  { ContentType : string;
    ValidatorKey : string;
    ExcludeRequestBody : bool;
    ExcludeResponseBody : bool;
    IncludeResponseStatus : bool;
    MultiError : bool }.

Record Handler : Type := { Config : HandlerConfig }.

Definition DefaultHandlerConfig : HandlerConfig :=
  {| ContentType := ApplicationJSON; ValidatorKey := "validator";
     ExcludeRequestBody := false; ExcludeResponseBody := false;
     IncludeResponseStatus := true; MultiError := true |}.

Definition NewHandlerWithConfig (config : HandlerConfig) : Handler :=
  {| Config := config |}.

Definition NewHandler : Handler := NewHandlerWithConfig DefaultHandlerConfig.

(** The [ResponseValidationInput] of lines 99-110, from the response as
    [c] holds it. *)
Definition responseValidationInput (h : Handler)
    (input : openapi3filter.RequestValidationInput) (c : echo.Context) (b : bytes)
    : openapi3filter.ResponseValidationInput :=
  {| openapi3filter.resp_RequestValidationInput := input;
     openapi3filter.resp_Status := echo.Status (echo.Response_ c);
     openapi3filter.resp_Header := echo.Header (echo.Response_ c);
     openapi3filter.resp_Options :=
       {| openapi3filter.ExcludeRequestBody := ExcludeRequestBody (Config h);
          openapi3filter.ExcludeResponseBody := ExcludeResponseBody (Config h);
          openapi3filter.IncludeResponseStatus := IncludeResponseStatus (Config h);
          openapi3filter.MultiError := MultiError (Config h);
          openapi3filter.AuthenticationFunc_ := None |};
     openapi3filter.resp_Body := b |}.

(** [validate] (lines 66-120) *)
Definition validate (L : Libs) (h : Handler) (c : echo.Context) (code : Z)
    (contentType : string) (v : any) : Outcome :=
  if bool_decide (code = http.StatusNoContent) then NoContent code c else
  let '(val, c) := echo.Get (ValidatorKey (Config h)) c in
  match val with
  | Some (echo.ValidationInput input) =>
      let '(marshaled, c) :=
        if HasPrefix contentType ApplicationJSON
        then (json_Marshal L v, echo.record (CallJSONMarshal v) c)
        else if HasPrefix contentType ApplicationXML
        then (xml_Marshal L v, echo.record (CallXMLMarshal v) c)
        else
          (match v with
           | any_string s => inl s
           | _ => inl EmptyString
           end, c) in
      match marshaled with
      | inr err =>
          Return (Some (errorString ("failed marshaling response: " +:+ Error L err))) c
      | inl b =>
          let c := echo.set_Status code c in
          let c := echo.Header_Add "Content-Type" contentType c in
          let responseValidationInput := responseValidationInput h input c b in
          let c := echo.record (CallValidateResponse responseValidationInput) c in
          match ValidateResponse L responseValidationInput with
          | Some err =>
              let c := echo.record (CallDebug (Error L err)) c in
              Return (Some (errorString ("failed validating response: " +:+ Error L err))) c
          | None => Blob code (ContentType (Config h)) b c
          end
      end
  | _ => Return (Some (errorString "validator key is wrong type")) c
  end.

Definition Validate (L : Libs) (h : Handler) (c : echo.Context) (code : Z) (v : any)
    : Outcome :=
  validate L h c code (ContentType (Config h)) v.

Definition ValidateWithContentType (L : Libs) (h : Handler) (c : echo.Context)
    (code : Z) (contentType : string) (v : any) : Outcome :=
  validate L h c code contentType v.

End HandlerA.

(** ** handler.go, second revision (src/handler.go:121-281) *)

Module HandlerB.

Definition ApplicationJSON : string := echo.MIMEApplicationJSON.

Record HandlerConfig : Type :=
  { ContentType : string;
    ValidatorKey : string;
    ExcludeRequestBody : bool;
    ExcludeResponseBody : bool;
    IncludeResponseStatus : bool }.

Record Handler : Type := { Config : HandlerConfig }.

Definition DefaultHandlerConfig : HandlerConfig :=
  {| ContentType := ApplicationJSON; ValidatorKey := "validator";
     ExcludeRequestBody := false; ExcludeResponseBody := false;
     IncludeResponseStatus := true |}.

Definition NewHandlerWithConfig (config : HandlerConfig) : Handler :=
  let config :=
    if decide (ContentType config = EmptyString)
    then {| ContentType := ContentType DefaultHandlerConfig;
            ValidatorKey := ValidatorKey config;
            ExcludeRequestBody := ExcludeRequestBody config;
            ExcludeResponseBody := ExcludeResponseBody config;
            IncludeResponseStatus := IncludeResponseStatus config |}
    else config in
  let config :=
    if decide (ValidatorKey config = EmptyString)
    then {| ContentType := ContentType config;
            ValidatorKey := ValidatorKey DefaultHandlerConfig;
            ExcludeRequestBody := ExcludeRequestBody config;
            ExcludeResponseBody := ExcludeResponseBody config;
            IncludeResponseStatus := IncludeResponseStatus config |}
    else config in
  {| Config := config |}.

Definition NewHandler : Handler := NewHandlerWithConfig DefaultHandlerConfig.

(** The [ResponseValidationInput] of lines 239-250, from the response as
    [c] holds it; [MultiError] is always on. *)
Definition responseValidationInput (h : Handler)
    (input : openapi3filter.RequestValidationInput) (c : echo.Context) (b : bytes)
    : openapi3filter.ResponseValidationInput :=
  {| openapi3filter.resp_RequestValidationInput := input;
     openapi3filter.resp_Status := echo.Status (echo.Response_ c);
     openapi3filter.resp_Header := echo.Header (echo.Response_ c);
     openapi3filter.resp_Options :=
       {| openapi3filter.ExcludeRequestBody := ExcludeRequestBody (Config h);
          openapi3filter.ExcludeResponseBody := ExcludeResponseBody (Config h);
          openapi3filter.IncludeResponseStatus := IncludeResponseStatus (Config h);
          openapi3filter.MultiError := true;
          openapi3filter.AuthenticationFunc_ := None |};
     openapi3filter.resp_Body := b |}.

(** [validate] (lines 202-282).  [convertError] is the package's converter,
    of whichever revision of openapi.go the handler is built with; [None]
    is its panic. *)
Definition validate (L : Libs) (convertError : list error → option Issues)
    (h : Handler) (c : echo.Context) (code : Z) (contentType : string) (v : any)
    : Outcome :=
  if bool_decide (code = http.StatusNoContent) then NoContent code c else
  let c := echo.set_Status code c in
  let '(val, c) := echo.Get (ValidatorKey (Config h)) c in
  match val with
  | Some (echo.ValidationInput input) =>
      let marshaled : (bytes + error) * echo.Context + Outcome :=
        if HasPrefix contentType ApplicationJSON
        then
          let c := echo.Header_Add "Content-Type" contentType c in
          inl (json_Marshal L v, echo.record (CallJSONMarshal v) c)
        else
          let c := echo.Header_Add "Content-Type" echo.MIMETextPlain c in
          match v with
          | any_string s => inl (inl s, c)
          | any_bytes b => inl (inl b, c)
          | _ =>
              inr (Return (Some (errorString ("type " +:+ Sprint_s L v
                                              +:+ " not supported"))) c)
          end in
      match marshaled with
      | inr out => out
      | inl (inr err, c) =>
          Return (Some (errorString ("failed marshaling response: " +:+ Error L err))) c
      | inl (inl b, c) =>
          let responseValidationInput := responseValidationInput h input c b in
          let c := echo.record (CallValidateResponse responseValidationInput) c in
          match ValidateResponse L responseValidationInput with
          | Some (ResponseError _ (Some (MultiError me))) =>
              match convertError me with
              | None => Panic OpenapiB.nil_dereference
              | Some issues =>
                  let errors := sorted_messages issues (range_keys issues) in
                  Return (Some (errorString ("failed validating response: "
                                             +:+ Join errors "; "))) c
              end
          | Some (ResponseError _ _) => Blob code (ContentType (Config h)) b c
          | Some err =>
              Return (Some (errorString ("failed validating response: " +:+ Error L err))) c
          | None => Blob code (ContentType (Config h)) b c
          end
      end
  | _ => Return (Some (errorString "validator key is wrong type")) c
  end.

Definition Validate (L : Libs) (convertError : list error → option Issues)
    (h : Handler) (c : echo.Context) (code : Z) (v : any) : Outcome :=
  validate L convertError h c code (ContentType (Config h)) v.

Definition ValidateWithContentType (L : Libs) (convertError : list error → option Issues)
    (h : Handler) (c : echo.Context) (code : Z) (contentType : string) (v : any)
    : Outcome :=
  validate L convertError h c code contentType v.

End HandlerB.

(** ** The wording of the specification

    The key and the message of a schema error, and the message of a
    parameter error, written after the specification (section 4.4), to be
    compared with what the converters compute. *)

Definition spec_schema_key (path : list string) : string := Join path ".".

Definition spec_schema_message (path : list string) (Reason : string) : string :=
  let field := spec_schema_key path in
  ReplaceAll
    (if decide (field = EmptyString) then Reason else field +:+ ": " +:+ Reason)
    dquote squote.

Definition spec_parameter_key (p : openapi3.Param) : string :=
  openapi3.In p +:+ "." +:+ openapi3.Name p.

Definition spec_parameter_message (L : Libs) (p : openapi3.Param) (cause : error)
    : string :=
  "parameter '" +:+ openapi3.Name p +:+ "' in " +:+ openapi3.In p
  +:+ " has an error: " +:+ Split0 (Error L cause) newline.

(** The store holds nothing under the key, or a value of another type. *)
Definition no_validation_input (val : option echo.Value) : Prop :=
  ∀ input, val ≠ Some (echo.ValidationInput input).

(** ** A concrete world for the examples

    The libraries as the repository's tests meet them on
    [fixtures/openapi.yaml]: kin-openapi renders a schema error as its reason
    followed by the schema and the value on further lines, and quotes a
    parameter name with double quotes. *)

Module Demo.

Definition quoted (s : string) : string :=
  String dquote (s +:+ String dquote EmptyString).

Definition schema_details : string :=
  String newline
    ("Schema:" +:+ String newline
       ("  {...}" +:+ String newline
          (String newline ("Value:" +:+ String newline ("  ..." +:+ String newline EmptyString))))).

(** The reason of a request or response error, followed by its cause. *)
Definition with_cause (Reason : string) (cause : option string) : string :=
  match cause with
  | Some text =>
      if bool_decide (Reason = EmptyString) || String.eqb Reason text
      then text else Reason +:+ ": " +:+ text
  | None => Reason
  end.

Fixpoint render (err : error) {struct err} : string :=
  match err with
  | SchemaError _ Reason => Reason +:+ schema_details
  | RequestError p body Reason cause =>
      let reason :=
        with_cause Reason
          (match cause with Some e => Some (render e) | None => None end) in
      match p, body with
      | Some p, _ =>
          "parameter " +:+ quoted (openapi3.Name p) +:+ " in " +:+ openapi3.In p
          +:+ " has an error: " +:+ reason
      | None, Some _ => "request body has an error: " +:+ reason
      | None, None => reason
      end
  | ResponseError Reason cause =>
      with_cause Reason
        (match cause with Some e => Some (render e) | None => None end)
  | MultiError errs =>
      Join ((fix each (l : list error) : list string :=
               match l with
               | [] => []
               | e :: l' => render e :: each l'
               end) errs) " | "
  | ErrPathNotFound => "no matching operation was found"
  | ErrMethodNotAllowed => "method not allowed"
  | HTTPError _ Message => Message
  | errorString s => s
  | otherError _ => "open /invalid/path: no such file or directory"
  end.

Definition fixture : string := "./fixtures/openapi.yaml".

Definition missing_body : error :=
  RequestError None (Some {| openapi3.Required := true |}) EmptyString
    (Some (errorString "value is required but missing")).

Definition too_short : error := SchemaError [] "minimum string length is 2".

Definition short_username : error :=
  RequestError (Some {| openapi3.Name := "username"; openapi3.In := "path" |}) None
    EmptyString (Some (MultiError [too_short])).

Definition not_a_string : error :=
  SchemaError ["username"] "value must be a string".

Definition unsupported : error :=
  SchemaError [] ("property " +:+ quoted "invalid" +:+ " is unsupported").

Definition not_an_object : error :=
  ResponseError "response body doesn't match schema"
    (Some (SchemaError [] "value must be an object")).

Definition find (r : routers.Router) (req : http.Request)
    : (routers.Route * gmap string string) + error :=
  if String.eqb (http.URL req) "/" then
    if String.eqb (http.Method req) "GET" then inl (routers.RouteOf 0, ∅)
    else inr ErrMethodNotAllowed
  else if String.eqb (http.URL req) "/validation" then
    if String.eqb (http.Method req) "POST" then inl (routers.RouteOf 4, ∅)
    else inr ErrMethodNotAllowed
  else if String.eqb (http.URL req) "/validation/a" then
    if String.eqb (http.Method req) "POST"
    then inl (routers.RouteOf 5, {[ "username" := "a" ]})
    else inr ErrMethodNotAllowed
  else if String.eqb (http.URL req) "/broken" then inr (otherError 7)
  else inr ErrPathNotFound.

(** The body of the test "body error multiple". *)
Definition two_mistakes : string :=
  "{" +:+ quoted "username" +:+ ":1, " +:+ quoted "invalid" +:+ ": "
  +:+ quoted "value" +:+ "}".

Definition missing_username : error :=
  SchemaError ["username"] ("property " +:+ quoted "username" +:+ " is missing").

Definition body_mismatch (causes : list error) : error :=
  RequestError None (Some {| openapi3.Required := true |}) "doesn't match schema"
    (Some (MultiError causes)).

Definition validate_request (input : openapi3filter.RequestValidationInput)
    : option error :=
  let req := openapi3filter.req_Request input in
  if String.eqb (http.URL req) "/validation" then
    if String.eqb (http.Body req) EmptyString then Some (MultiError [missing_body])
    else if String.eqb (http.Body req) "{}" then
      Some (MultiError [body_mismatch [missing_username]])
    else if String.eqb (http.Body req) two_mistakes then
      Some (MultiError [body_mismatch [unsupported; not_a_string]])
    else None
  else if String.eqb (http.URL req) "/validation/a" then
    Some (MultiError [short_username])
  else None.

Definition marshal (v : any) : bytes + error :=
  match v with
  | any_string s => inl (quoted s)
  | any_bytes b => inl b
  | any_value 0 => inl "{}"
  | any_value _ => inr (otherError 1)
  end.

Definition validate_response (input : openapi3filter.ResponseValidationInput)
    : option error :=
  if String.prefix (String dquote EmptyString) (openapi3filter.resp_Body input)
  then Some not_an_object
  else None.

Definition matches (err target : error) : bool :=
  match err, target with
  | ErrPathNotFound, ErrPathNotFound => true
  | ErrMethodNotAllowed, ErrMethodNotAllowed => true
  | _, _ => false
  end.

Definition libs : Libs :=
  {| lib_Error := render;
     LoadFromFile := λ location,
       if String.eqb location fixture then inl (openapi3.Doc 0) else inr (otherError 0);
     LoadFromData := λ _, inl (openapi3.Doc 1);
     Validate := λ _, None;
     NewRouter := λ _, inl (routers.RouterOf 0);
     FindRoute := find;
     ValidateRequest := validate_request;
     ValidateResponse := validate_response;
     json_Marshal := marshal;
     xml_Marshal := marshal;
     errors_Is := matches;
     Sprint_s := λ _, "[]" |}.

Definition request (method url body : string) : http.Request :=
  {| http.Method := method; http.URL := url;
     http.Header := [("Content-Type", "application/json")]; http.Body := body |}.

(** A fresh context for [request], routed by Echo to the pattern [path]. *)
Definition context (path : string) (req : http.Request) : echo.Context :=
  {| echo.Path := path; echo.Request := req; echo.store := ∅;
     echo.Response_ := {| echo.Status := 200; echo.Header := [] |};
     echo.calls := [] |}.

(** A downstream handler that returns [nil]. *)
Definition ok : HandlerFunc := λ c, Return None c.

(** The configurations of the tests, for the first and the second revision
    of openapi.go. *)
Definition configA (schema : string) : OpenapiA.Config :=
  {| OpenapiA.Skipper := None; OpenapiA.Schema := schema;
     OpenapiA.ContextKey := EmptyString;
     OpenapiA.ExemptRoutes := {[ "/exempt" := ["GET"] ]} |}.

Definition configB (schema : string) : OpenapiB.Config :=
  {| OpenapiB.Skipper := None; OpenapiB.Schema := schema;
     OpenapiB.SchemaBytes := EmptyString;
     OpenapiB.ContextKey := EmptyString;
     OpenapiB.ExemptRoutes := {[ "/exempt" := ["GET"] ]} |}.

(** A context in which the middleware has stored its validation input. *)
Definition validated (path : string) (req : http.Request) : echo.Context :=
  {| echo.Path := path; echo.Request := req;
     echo.store :=
       {[ "validator" :=
            echo.ValidationInput (requestValidationInput req (routers.RouteOf 0) ∅) ]};
     echo.Response_ := {| echo.Status := 200; echo.Header := [] |};
     echo.calls := [] |}.

End Demo.

(** ** The response helper with Echo's writer left open

    [c.NoContent] and [c.Blob] return what Echo's writer returns: [nil], the
    error of the connection underneath, or a panic ([WriteHeader] panics on
    a status outside 100..999, and [validate] passes the status on
    unchecked).  Here the writer is any function of the call and of the
    context the call is recorded in; [validate] of either revision of
    handler.go is as above, with its writes handed to that function. *)
Module WithWriter.

Section writer.

Variable write : Call → echo.Context → Outcome.

Definition NoContent (code : Z) (c : echo.Context) : Outcome :=
  write (CallNoContent code) (echo.record (CallNoContent code) c).

Definition Blob (code : Z) (contentType : string) (b : bytes) (c : echo.Context)
    : Outcome :=
  write (CallBlob code contentType b) (echo.record (CallBlob code contentType b) c).

(** [validate], first revision (src/handler.go:66-120) *)
Definition validateA (L : Libs) (h : HandlerA.Handler) (c : echo.Context) (code : Z)
    (contentType : string) (v : any) : Outcome :=
  if bool_decide (code = http.StatusNoContent) then NoContent code c else
  let '(val, c) := echo.Get (HandlerA.ValidatorKey (HandlerA.Config h)) c in
  match val with
  | Some (echo.ValidationInput input) =>
      let '(marshaled, c) :=
        if HasPrefix contentType HandlerA.ApplicationJSON
        then (json_Marshal L v, echo.record (CallJSONMarshal v) c)
        else if HasPrefix contentType HandlerA.ApplicationXML
        then (xml_Marshal L v, echo.record (CallXMLMarshal v) c)
        else
          (match v with
           | any_string s => inl s
           | _ => inl EmptyString
           end, c) in
      match marshaled with
      | inr err =>
          Return (Some (errorString ("failed marshaling response: " +:+ Error L err))) c
      | inl b =>
          let c := echo.set_Status code c in
          let c := echo.Header_Add "Content-Type" contentType c in
          let responseValidationInput := HandlerA.responseValidationInput h input c b in
          let c := echo.record (CallValidateResponse responseValidationInput) c in
          match ValidateResponse L responseValidationInput with
          | Some err =>
              let c := echo.record (CallDebug (Error L err)) c in
              Return (Some (errorString ("failed validating response: " +:+ Error L err))) c
          | None => Blob code (HandlerA.ContentType (HandlerA.Config h)) b c
          end
      end
  | _ => Return (Some (errorString "validator key is wrong type")) c
  end.

(** [validate], second revision (src/handler.go:202-282) *)
Definition validateB (L : Libs) (convertError : list error → option Issues)
    (h : HandlerB.Handler) (c : echo.Context) (code : Z) (contentType : string)
    (v : any) : Outcome :=
  if bool_decide (code = http.StatusNoContent) then NoContent code c else
  let c := echo.set_Status code c in
  let '(val, c) := echo.Get (HandlerB.ValidatorKey (HandlerB.Config h)) c in
  match val with
  | Some (echo.ValidationInput input) =>
      let marshaled : (bytes + error) * echo.Context + Outcome :=
        if HasPrefix contentType HandlerB.ApplicationJSON
        then
          let c := echo.Header_Add "Content-Type" contentType c in
          inl (json_Marshal L v, echo.record (CallJSONMarshal v) c)
        else
          let c := echo.Header_Add "Content-Type" echo.MIMETextPlain c in
          match v with
          | any_string s => inl (inl s, c)
          | any_bytes b => inl (inl b, c)
          | _ =>
              inr (Return (Some (errorString ("type " +:+ Sprint_s L v
                                              +:+ " not supported"))) c)
          end in
      match marshaled with
      | inr out => out
      | inl (inr err, c) =>
          Return (Some (errorString ("failed marshaling response: " +:+ Error L err))) c
      | inl (inl b, c) =>
          let responseValidationInput := HandlerB.responseValidationInput h input c b in
          let c := echo.record (CallValidateResponse responseValidationInput) c in
          match ValidateResponse L responseValidationInput with
          | Some (ResponseError _ (Some (MultiError me))) =>
              match convertError me with
              | None => Panic OpenapiB.nil_dereference
              | Some issues =>
                  let errors := sorted_messages issues (range_keys issues) in
                  Return (Some (errorString ("failed validating response: "
                                             +:+ Join errors "; "))) c
              end
          | Some (ResponseError _ _) =>
              Blob code (HandlerB.ContentType (HandlerB.Config h)) b c
          | Some err =>
              Return (Some (errorString ("failed validating response: " +:+ Error L err))) c
          | None => Blob code (HandlerB.ContentType (HandlerB.Config h)) b c
          end
      end
  | _ => Return (Some (errorString "validator key is wrong type")) c
  end.

End writer.

(** The writer that succeeds. *)
Definition succeeds : Call → echo.Context → Outcome := λ _ c, Return None c.

End WithWriter.

(** ** The order of discovery

    The messages of one raw error with the keys they are filed under, in the
    order in which the loop of [convertError] (src/openapi.go:133-175) comes
    to them: one entry for a schema error, a parameter error or an
    unrecognised error, none for a request error that is neither a parameter
    error nor a nested multi-error, and for a nested multi-error the entries
    of its members, in their order, at the place of the request error that
    carries it. *)
Fixpoint entriesA (L : Libs) (err : error) {struct err} : list (string * string) :=
  match err with
  | SchemaError path Reason =>
      let field := if bool_decide (0 < length path)%nat then Join path "." else EmptyString in
      let msg :=
        if bool_decide (0 < String.length field)%nat
        then field +:+ ": " +:+ Reason
        else Reason in
      [("schema", ReplaceAll msg dquote squote)]
  | RequestError (Some p) _ _ _ =>
      [(openapi3.In p +:+ "." +:+ openapi3.Name p, Error L err)]
  | RequestError None _ _ (Some (MultiError errs)) =>
      (fix members (me : list error) {struct me} : list (string * string) :=
         match me with
         | [] => []
         | e :: me' => entriesA L e ++ members me'
         end) errs
  | RequestError None _ _ _ => []
  | _ => [("unknown", Error L err)]
  end.

(** The messages of the key [k] among keyed messages, in their order. *)
Definition filed (k : string) (entries : list (string * string)) : list string :=
  (filter (λ e, e.1 = k) entries).*2.

(** ** Notions for the further properties *)

(** All the messages of an issue map, key after key. *)
Definition all_messages (m : Issues) : list string := mjoin (map_to_list m).*2.


(** The same for the converter of the second revision. *)
Fixpoint messagesB (L : Libs) (err : error) {struct err} : list string :=
  match err with
  | SchemaError path Reason => [spec_schema_message path Reason]
  | RequestError (Some p) _ _ (Some cause) => [spec_parameter_message L p cause]
  | RequestError (Some _) _ _ None => []
  | RequestError None _ _ (Some (MultiError errs)) =>
      (fix each (l : list error) : list string :=
         match l with
         | [] => []
         | e :: l' => messagesB L e ++ each l'
         end) errs
  | RequestError None (Some _) _ _ => [Error L err]
  | RequestError None None _ _ => []
  | _ => [Error L err]
  end.

(** The calls that write the response, and the calls that load the schema
    and build the router. *)
Definition is_write (k : Call) : bool :=
  match k with
  | CallNoContent _ | CallBlob _ _ _ | CallJSON _ _ => true
  | _ => false
  end.

Definition is_setup (k : Call) : bool :=
  match k with
  | CallLoadFromFile _ | CallLoadFromData _ | CallValidate _ | CallNewRouter _ => true
  | _ => false
  end.

(** The key the middleware stores its validation input under: the
    configured one, or the default when none is configured. *)
Definition context_key (configured : string) : string :=
  if decide (configured = EmptyString) then "validator" else configured.

(** [m'] extends [m]: it has every key of [m], and under each key the list
    of [m] followed by what was appended. *)
Definition extends (m m' : Issues) : Prop :=
  ∀ k, (is_Some (m !! k) → is_Some (m' !! k)) ∧ m !!! k `prefix_of` m' !!! k.

(** From [c] to [c'] exactly the calls [added] were made. *)
Definition made (c c' : echo.Context) (added : list Call) : Prop :=
  echo.calls c' = echo.calls c ++ added.

(** ** Further concrete cases *)

Module Cases.

(** The world of the examples, with the validators' and the marshaler's
    answers fixed. *)
Definition world (request response : option error) (marshaled : bytes + error)
    : Libs :=
  {| lib_Error := Demo.render;
     LoadFromFile := LoadFromFile Demo.libs;
     LoadFromData := LoadFromData Demo.libs;
     Validate := Validate Demo.libs;
     NewRouter := NewRouter Demo.libs;
     FindRoute := FindRoute Demo.libs;
     ValidateRequest := λ _, request;
     ValidateResponse := λ _, response;
     json_Marshal := λ _, marshaled;
     xml_Marshal := λ _, marshaled;
     errors_Is := errors_Is Demo.libs;
     Sprint_s := Sprint_s Demo.libs |}.

(** A parameter error with a missing body beside it; a parameter error
    without cause; a body whose field [body] has the wrong type. *)
Definition parameter_and_body : list error :=
  [Demo.short_username; Demo.missing_body].

Definition without_cause : error :=
  RequestError (Some {| openapi3.Name := "limit"; openapi3.In := "query" |}) None
    "value is required" None.

Definition field_named_body : list error :=
  [Demo.body_mismatch [SchemaError ["body"] "value must be a string"]].

(** An exemption table that names the path of the request, [/validation/a],
    where Echo has the route registered as [/validation/:username]. *)
Definition exempt_by_url : OpenapiA.Config :=
  {| OpenapiA.Skipper := None; OpenapiA.Schema := Demo.fixture;
     OpenapiA.ContextKey := EmptyString;
     OpenapiA.ExemptRoutes := {[ "/validation/a" := ["POST"] ]} |}.

Definition post_short_username : echo.Context :=
  Demo.context "/validation/:username"
    (Demo.request "POST" "/validation/a" EmptyString).

Definition post_validation : echo.Context :=
  Demo.context "/validation" (Demo.request "POST" "/validation" "{}").

Definition get_root : echo.Context :=
  Demo.context "/" (Demo.request "GET" "/" EmptyString).

(** A handler of the first revision built from an empty configuration: its
    validator key stays empty. *)
Definition bare_handler : HandlerA.Handler :=
  HandlerA.NewHandlerWithConfig
    {| HandlerA.ContentType := EmptyString; HandlerA.ValidatorKey := EmptyString;
       HandlerA.ExcludeRequestBody := false; HandlerA.ExcludeResponseBody := false;
       HandlerA.IncludeResponseStatus := false; HandlerA.MultiError := false |}.

(** A validated context for [GET /], and the validation input stored in it. *)
Definition validated_root : echo.Context :=
  Demo.validated "/" (Demo.request "GET" "/" EmptyString).

Definition root_input : openapi3filter.RequestValidationInput :=
  requestValidationInput (Demo.request "GET" "/" EmptyString) (routers.RouteOf 0) ∅.

(** The same for [GET /text], the route of the tests of the plain-text
    payloads. *)
Definition text_input : openapi3filter.RequestValidationInput :=
  requestValidationInput (Demo.request "GET" "/text" EmptyString)
    (routers.RouteOf 2) ∅.

Definition validated_text : echo.Context :=
  {| echo.Path := "/text"; echo.Request := Demo.request "GET" "/text" EmptyString;
     echo.store := {[ "validator" := echo.ValidationInput text_input ]};
     echo.Response_ := {| echo.Status := 200; echo.Header := [] |};
     echo.calls := [] |}.


(** A world in which the request and the response are valid. *)
Definition valid (marshaled : bytes) : Libs := world None None (inl marshaled).

End Cases.

(** * Properties *)

(** ** Issue maps *)

Section issue_maps.
Implicit Types (issues sub : Issues) (k : string) (msgs : list string).

Lemma lookup_append_to issues k msgs k' :
  append_to issues k msgs !! k' =
  if decide (k = k') then Some (issues !!! k ++ msgs) else issues !! k'.
Proof.
  unfold append_to. case_decide; subst.
  - by rewrite lookup_insert_eq.
  - by rewrite lookup_insert_ne.
Qed.

Lemma lookup_merge (m1 m2 : Issues) k :
  merge m1 m2 !! k = union_with (λ a b, Some (a ++ b)) (m1 !! k) (m2 !! k).
Proof. apply lookup_union_with. Qed.

Lemma append_to_merge issues k msgs :
  append_to issues k msgs = merge issues {[ k := msgs ]}.
Proof.
  apply map_eq; intros k'. rewrite lookup_append_to, lookup_merge.
  case_decide; subst.
  - rewrite lookup_singleton_eq, lookup_total_alt.
    by destruct (issues !! k').
  - rewrite lookup_singleton_ne by done. by destruct (issues !! k').
Qed.

Lemma merge_empty_r (m : Issues) : merge m ∅ = m.
Proof.
  apply map_eq; intros k. rewrite lookup_merge, lookup_empty.
  by destruct (m !! k).
Qed.

Lemma merge_empty_l (m : Issues) : merge ∅ m = m.
Proof.
  apply map_eq; intros k. rewrite lookup_merge, lookup_empty.
  by destruct (m !! k).
Qed.

Lemma merge_assoc (m1 m2 m3 : Issues) :
  merge (merge m1 m2) m3 = merge m1 (merge m2 m3).
Proof.
  apply map_eq; intros k. rewrite !lookup_merge.
  destruct (m1 !! k), (m2 !! k), (m3 !! k); simpl; try done.
  by rewrite (assoc_L (++)).
Qed.

Lemma merge_comm (m1 m2 : Issues) :
  dom m1 ## dom m2 → merge m1 m2 = merge m2 m1.
Proof.
  intros Hd. apply map_eq; intros k. rewrite !lookup_merge.
  destruct (m1 !! k) eqn:E1, (m2 !! k) eqn:E2; simpl; try done.
  exfalso. apply (Hd k); apply elem_of_dom; eauto.
Qed.

Lemma merge_range_list issues kvs :
  NoDup kvs.*1 → merge_range issues kvs = merge issues (list_to_map kvs).
Proof.
  revert issues. induction kvs as [|[k v] kvs IH]; intros issues Hnd.
  - simpl. by rewrite merge_empty_r.
  - apply NoDup_cons in Hnd as [Hk Hnd]. simpl.
    unfold merge_range in *. simpl. rewrite IH by done.
    rewrite append_to_merge, merge_assoc. f_equal.
    apply map_eq; intros k'. rewrite lookup_merge, lookup_insert.
    case_decide; subst.
    + rewrite lookup_singleton_eq.
      by rewrite (not_elem_of_list_to_map_1 _ k').
    + rewrite lookup_singleton_ne by done.
      by destruct (list_to_map kvs !! k').
Qed.

Lemma merge_range_perm issues sub kvs :
  kvs ≡ₚ map_to_list sub → merge_range issues kvs = merge issues sub.
Proof.
  intros Hp. rewrite merge_range_list.
  - f_equal. rewrite (list_to_map_proper kvs (map_to_list sub)).
    + apply list_to_map_to_list.
    + rewrite Hp. apply NoDup_fst_map_to_list.
    + done.
  - rewrite Hp. apply NoDup_fst_map_to_list.
Qed.

End issue_maps.

(** ** The converter of the first revision *)

Section converter_A.
Variable L : Libs.

(** The inner loop of the nested case is the converter itself. *)
Lemma convertError_step_nested issues RequestBody Reason errs :
  OpenapiA.convertError_step L issues
    (RequestError None RequestBody Reason (Some (MultiError errs)))
  = merge_range issues (map_to_list (OpenapiA.convertError L errs)).
Proof.
  reflexivity.
Qed.

Lemma append_to_empty k msgs : append_to ∅ k msgs = {[ k := msgs ]}.
Proof. unfold append_to. by rewrite lookup_total_empty. Qed.

(** A turn of the loop only adds: what it adds does not depend on the map
    built so far. *)
Lemma convertError_step_merge issues err :
  OpenapiA.convertError_step L issues err
  = merge issues (OpenapiA.convertError_step L ∅ err).
Proof.
  destruct err as [path r|[p|] rb r [cause|]|r cause|errs| | |code m|s|n];
    try (cbn [OpenapiA.convertError_step];
         by rewrite append_to_empty, append_to_merge).
  - destruct cause as [| | |errs| | | | |];
      try (simpl; destruct rb; by rewrite merge_empty_r).
    rewrite !convertError_step_nested.
    rewrite !(merge_range_perm _ (OpenapiA.convertError L errs)) by done.
    by rewrite merge_empty_l.
  - simpl. destruct rb; by rewrite merge_empty_r.
Qed.

Lemma convertError_foldl acc me :
  foldl (OpenapiA.convertError_step L) acc me = merge acc (OpenapiA.convertError L me).
Proof.
  unfold OpenapiA.convertError. revert acc.
  induction me as [|e me IH]; intros acc; simpl.
  - by rewrite merge_empty_r.
  - rewrite IH, (IH (OpenapiA.convertError_step L ∅ e)).
    by rewrite (convertError_step_merge acc), merge_assoc.
Qed.

Lemma convertError_app me1 me2 :
  OpenapiA.convertError L (me1 ++ me2)
  = merge (OpenapiA.convertError L me1) (OpenapiA.convertError L me2).
Proof.
  unfold OpenapiA.convertError at 1. rewrite foldl_app.
  apply convertError_foldl.
Qed.

Lemma convertError_cons err me :
  OpenapiA.convertError L (err :: me)
  = merge (OpenapiA.convertError L [err]) (OpenapiA.convertError L me).
Proof. apply (convertError_app [err]). Qed.

End converter_A.

(** ** Sorting and the exemption table *)

Lemma sort_Strings_perm (l1 l2 : list string) :
  l1 ≡ₚ l2 → sort_Strings l1 = sort_Strings l2.
Proof.
  intros Hp. apply (Sorted_unique String.le).
  - apply Sorted_merge_sort, _.
  - apply Sorted_merge_sort, _.
  - unfold sort_Strings. by rewrite !merge_sort_Permutation.
Qed.

Lemma elem_of_range_keys (m : Issues) (k : string) :
  k ∈ range_keys m ↔ is_Some (m !! k).
Proof.
  unfold range_keys. rewrite list_elem_of_fmap. split.
  - intros ([k' v] & -> & Hin). apply elem_of_map_to_list in Hin. eauto.
  - intros [v Hv]. exists (k, v). split; [done|]. by apply elem_of_map_to_list.
Qed.

Lemma method_in_spec (method : string) (v : list string) :
  method_in method v = true ↔ method ∈ v.
Proof.
  induction v as [|i v IH]; simpl.
  - split; [done|]. by intros ?%elem_of_nil.
  - destruct (String.eqb method i) eqn:E.
    + apply String.eqb_eq in E as ->. split; [left|done].
    + apply String.eqb_neq in E. rewrite IH, elem_of_cons. split.
      * by right.
      * by intros [?|?].
Qed.

Lemma check_range_spec (path method : string) (kvs : list (string * list string)) :
  check_range path method kvs = true ↔ ∃ v, (path, v) ∈ kvs ∧ method ∈ v.
Proof.
  induction kvs as [|[k v] kvs IH]; simpl.
  - split; [done|]. by intros (? & ?%elem_of_nil & _).
  - destruct (String.eqb k path) eqn:E.
    + apply String.eqb_eq in E as ->.
      destruct (method_in method v) eqn:Ev.
      * apply method_in_spec in Ev. split; [|done]. intros _. exists v.
        split; [left|done].
      * rewrite IH. split.
        -- intros (v' & ? & ?). exists v'. split; [by right|done].
        -- intros (v' & [Heq|?]%elem_of_cons & Hm); [|by eauto].
           simplify_eq. apply method_in_spec in Hm. congruence.
    + apply String.eqb_neq in E. rewrite IH. split.
      * intros (v' & ? & ?). exists v'. split; [by right|done].
      * intros (v' & [Heq|?]%elem_of_cons & Hm); [|by eauto]. simplify_eq.
Qed.

(** [check] finds the pair whatever the order the table is walked in. *)
Lemma check_spec (path method : string) (m : gmap string (list string)) :
  check path method m = true ↔ ∃ v, m !! path = Some v ∧ method ∈ v.
Proof.
  unfold check. rewrite check_range_spec.
  by setoid_rewrite elem_of_map_to_list.
Qed.

Lemma check_range_perm (path method : string) (kvs kvs' : list (string * list string)) :
  kvs ≡ₚ kvs' → check_range path method kvs = check_range path method kvs'.
Proof.
  intros Hp. apply eq_true_iff_eq. rewrite !check_range_spec.
  by setoid_rewrite Hp.
Qed.

(** ** The middleware of the first revision *)

(** Filling in the defaults touches neither the schema source nor the
    exemption table, so the middleware is the closure over the same two. *)
Lemma OpenAPIWithConfig_serve (L : Libs) (config : OpenapiA.Config) :
  ∃ config',
    OpenapiA.OpenAPIWithConfig L config
    = OpenapiA.serve L (default DefaultSkipper (OpenapiA.Skipper config)) config'
    ∧ OpenapiA.Schema config' = OpenapiA.Schema config
    ∧ OpenapiA.ExemptRoutes config' = OpenapiA.ExemptRoutes config.
Proof.
  unfold OpenapiA.OpenAPIWithConfig. case_decide; eauto.
Qed.

(** Runs the closure of the first revision up to the call of [FindRoute],
    from a hypothesis [H : OpenapiA.resolves ..]. *)
Ltac to_router H :=
  let Hskip := fresh in let Hcheck := fresh in let Hload := fresh in
  let Hval := fresh in let Hrouter := fresh in
  let HS := fresh in let HE := fresh in let config' := fresh "config'" in
  destruct H as (Hskip & Hcheck & Hload & Hval & Hrouter);
  match goal with
  | |- context [OpenapiA.OpenAPIWithConfig ?L ?config] =>
      destruct (OpenAPIWithConfig_serve L config) as (config' & -> & HS & HE)
  end;
  unfold OpenapiA.serve, OpenapiA.setup_calls;
  rewrite Hskip, HE, Hcheck, HS, Hload, Hval, Hrouter; cbn.

(** C5. Route resolution (src/openapi.go:77-90).  When [FindRoute] fails on a
    request that reached it, the middleware returns at once, without calling
    the next handler and without writing a response: for the sentinel
    [ErrPathNotFound] an HTTP error 404 "Path not found", for the sentinel
    [ErrMethodNotAllowed] an HTTP error 405 "Method not allowed", and any
    other error value unchanged.  The two are told apart by which value the
    error is, never by its text: the rendering [Error L] is arbitrary here,
    so an error that merely reads like a sentinel is propagated as it is. *)
Theorem C5_route_resolution_errors (L : Libs) (config : OpenapiA.Config)
    (next : HandlerFunc) (c : echo.Context) (schema : openapi3.T)
    (r : routers.Router) (err : error) :
  OpenapiA.resolves L config c schema r →
  FindRoute L r (echo.Request c) = inr err →
  ∃ reply,
    OpenapiA.OpenAPIWithConfig L config next c
    = Return (Some reply)
        (echo.record_all
           (OpenapiA.setup_calls config schema r
            ++ [CallDebugf ("error finding route for " +:+ http.URL (echo.Request c)
                            +:+ ": " +:+ Error L err)]) c)
    ∧ (err = ErrPathNotFound → reply = HTTPError 404 "Path not found")
    ∧ (err = ErrMethodNotAllowed → reply = HTTPError 405 "Method not allowed")
    ∧ (err ≠ ErrPathNotFound → err ≠ ErrMethodNotAllowed → reply = err).
Proof.
  intros Hres Hfind. to_router Hres. rewrite Hfind.
  destruct err; eexists; (split; [reflexivity|]); repeat split; congruence.
Qed.

(** Every failure of request validation ends the request with one JSON
    response of status 422: the flattened messages of a multi-error, or the
    text of any other error. *)
Lemma serve_validation_failure (L : Libs) (config : OpenapiA.Config)
    (next : HandlerFunc) (c : echo.Context) (schema : openapi3.T)
    (r : routers.Router) (route : routers.Route) (pathParams : gmap string string)
    (err : error) :
  OpenapiA.resolves L config c schema r →
  FindRoute L r (echo.Request c) = inl (route, pathParams) →
  ValidateRequest L (requestValidationInput (echo.Request c) route pathParams)
  = Some err →
  OpenapiA.OpenAPIWithConfig L config next c
  = Return None
      (echo.record_all
         (OpenapiA.setup_calls config schema r
          ++ [CallValidateRequest
                (requestValidationInput (echo.Request c) route pathParams);
              CallJSON 422
                {| Code := 422; Message := "Validation error";
                   Errors :=
                     match err with
                     | MultiError me =>
                         sorted_messages (OpenapiA.convertError L me)
                           (range_keys (OpenapiA.convertError L me))
                     | _ => [Error L err]
                     end |}]) c).
Proof.
  intros Hres Hfind Hvalidate. to_router Hres. rewrite Hfind.
  cbn -[requestValidationInput]. rewrite Hvalidate.
  by destruct err.
Qed.

(** A request error that is neither a parameter error nor a nested
    multi-error leaves the map as it was. *)
Lemma convertError_step_dropped (L : Libs) (issues : Issues)
    (RequestBody : option openapi3.RequestBody) (Reason : string)
    (Err : option error) :
  (∀ errs, Err ≠ Some (MultiError errs)) →
  OpenapiA.convertError_step L issues (RequestError None RequestBody Reason Err)
  = issues.
Proof.
  intros Hne. destruct Err as [[]|]; simpl; try by destruct RequestBody.
  by edestruct Hne.
Qed.

(** C1. The malformed or missing request body (src/openapi.go:160-170 and
    101-121).  A request-body error with no nested multi-error is dropped by
    the converter: no key [body] (no key at all) exists for it, and the
    request is answered with status 422 and an empty list of errors, not
    with 400 and the text of the cause. *)
Theorem C1_missing_body_answered_422_without_message (L : Libs)
    (config : OpenapiA.Config) (next : HandlerFunc) (c : echo.Context)
    (schema : openapi3.T) (r : routers.Router) (route : routers.Route)
    (pathParams : gmap string string) (body : openapi3.RequestBody)
    (Reason : string) (Err : option error) :
  OpenapiA.resolves L config c schema r →
  FindRoute L r (echo.Request c) = inl (route, pathParams) →
  (∀ errs, Err ≠ Some (MultiError errs)) →
  ValidateRequest L (requestValidationInput (echo.Request c) route pathParams)
  = Some (MultiError [RequestError None (Some body) Reason Err]) →
  OpenapiA.convertError L [RequestError None (Some body) Reason Err] = ∅
  ∧ OpenapiA.OpenAPIWithConfig L config next c
    = Return None
        (echo.record_all
           (OpenapiA.setup_calls config schema r
            ++ [CallValidateRequest
                  (requestValidationInput (echo.Request c) route pathParams);
                CallJSON 422
                  {| Code := 422; Message := "Validation error"; Errors := [] |}])
           c).
Proof.
  intros Hres Hfind Hne Hvalidate.
  assert (OpenapiA.convertError L [RequestError None (Some body) Reason Err] = ∅)
    as Hconv.
  { unfold OpenapiA.convertError. cbn [foldl].
    by apply convertError_step_dropped. }
  split; [done|].
  rewrite (serve_validation_failure L config next c schema r route pathParams _
             Hres Hfind Hvalidate).
  rewrite Hconv. unfold range_keys. by rewrite map_to_list_empty.
Qed.

(** C2. Loading the schema (src/openapi.go:47-75).  Constructing the
    middleware loads nothing and cannot fail; the document is loaded inside
    the closure, on every request that is neither skipped nor exempt.  With a
    schema source that does not load, a skipped request is still served by
    the next handler, and any other request records the call of
    [LoadFromFile] on its own path and gets the loader's error back as an
    ordinary per-request error. *)
Theorem C2_schema_loaded_on_the_request_path (L : Libs) (config : OpenapiA.Config)
    (next : HandlerFunc) (c : echo.Context) (err : error) :
  LoadFromFile L (OpenapiA.Schema config) = inr err →
  (default DefaultSkipper (OpenapiA.Skipper config) c = true →
   OpenapiA.OpenAPIWithConfig L config next c = next c)
  ∧ (default DefaultSkipper (OpenapiA.Skipper config) c = false →
     check (echo.Path c) (http.Method (echo.Request c))
       (OpenapiA.ExemptRoutes config) = false →
     OpenapiA.OpenAPIWithConfig L config next c
     = Return (Some err)
         (echo.record_all
            [CallLoadFromFile (OpenapiA.Schema config);
             CallErrorf ("error loading schema file: " +:+ Error L err)] c)).
Proof.
  intros Hload.
  destruct (OpenAPIWithConfig_serve L config) as (config' & -> & HS & HE).
  unfold OpenapiA.serve. split.
  - by intros ->.
  - intros -> Hcheck. by rewrite HE, Hcheck, HS, Hload.
Qed.

(** ** Strings *)

Lemma ReplaceAll_length (s : string) (old new : Ascii.ascii) :
  String.length (ReplaceAll s old new) = String.length s.
Proof. induction s; simpl; congruence. Qed.

Lemma ReplaceAll_get (s : string) (old new : Ascii.ascii) (i : nat) :
  String.get i (ReplaceAll s old new)
  = (λ a, if Ascii.eqb a old then new else a) <$> String.get i s.
Proof.
  revert i. induction s as [|a s IH]; intros [|i]; simpl; auto.
Qed.

Lemma length_pos_nonempty (s : string) :
  bool_decide (0 < String.length s)%nat = bool_decide (s ≠ EmptyString).
Proof.
  apply bool_decide_ext. destruct s; simpl; split; try done; try lia.
Qed.

(** What both converters compute for a schema error is the message of the
    specification. *)
Lemma schema_message_computed (path : list string) (Reason : string) :
  let field :=
    if bool_decide (0 < length path)%nat then Join path "." else EmptyString in
  field = spec_schema_key path
  ∧ ReplaceAll
      (if bool_decide (0 < String.length field)%nat
       then field +:+ ": " +:+ Reason else Reason) dquote squote
    = spec_schema_message path Reason.
Proof.
  intros field.
  assert (field = spec_schema_key path) as ->.
  { subst field. destruct path; [done|]. by rewrite bool_decide_true by (simpl; lia). }
  split; [done|]. unfold spec_schema_message.
  rewrite length_pos_nonempty. by case_bool_decide; case_decide.
Qed.

(** ** The converter of the second revision *)

Lemma revB_schema_error (L : Libs) (issues : Issues) (path : list string)
    (Reason : string) :
  OpenapiB.convertError_step L issues (SchemaError path Reason)
  = Some (append_to issues (spec_schema_key path) [spec_schema_message path Reason]).
Proof.
  cbn [OpenapiB.convertError_step].
  destruct (schema_message_computed path Reason) as [-> ->]. done.
Qed.

Lemma revB_parameter_error (L : Libs) (issues : Issues) (p : openapi3.Param)
    (RequestBody : option openapi3.RequestBody) (Reason : string) (cause : error) :
  OpenapiB.convertError_step L issues
    (RequestError (Some p) RequestBody Reason (Some cause))
  = Some (append_to issues (spec_parameter_key p) [spec_parameter_message L p cause]).
Proof. reflexivity. Qed.

Lemma revB_parameter_error_nil_cause (L : Libs) (issues : Issues)
    (p : openapi3.Param) (RequestBody : option openapi3.RequestBody)
    (Reason : string) :
  OpenapiB.convertError_step L issues (RequestError (Some p) RequestBody Reason None)
  = None.
Proof. reflexivity. Qed.

Lemma revB_body_error (L : Libs) (issues : Issues) (body : openapi3.RequestBody)
    (Reason : string) (Err : option error) :
  (∀ errs, Err ≠ Some (MultiError errs)) →
  OpenapiB.convertError_step L issues (RequestError None (Some body) Reason Err)
  = Some (append_to issues "body"
            [Error L (RequestError None (Some body) Reason Err)]).
Proof.
  intros Hne. destruct Err as [[]|]; try done. by edestruct Hne.
Qed.

(** The second revision does what C1 asks of a lone request-body error:
    status 400 and the text of the error under [body]. *)
Lemma revB_missing_body_answered_400 (L : Libs) (skipper : echo.Context → bool)
    (config : OpenapiB.Config) (router : routers.Router) (next : HandlerFunc)
    (c : echo.Context) (route : routers.Route) (pathParams : gmap string string)
    (body : openapi3.RequestBody) (Reason : string) (Err : option error) :
  skipper c = false →
  check (echo.Path c) (http.Method (echo.Request c)) (OpenapiB.ExemptRoutes config)
  = false →
  FindRoute L router (echo.Request c) = inl (route, pathParams) →
  (∀ errs, Err ≠ Some (MultiError errs)) →
  ValidateRequest L (requestValidationInput (echo.Request c) route pathParams)
  = Some (MultiError [RequestError None (Some body) Reason Err]) →
  OpenapiB.serve L skipper config router next c
  = Return None
      (echo.record_all
         [CallFindRoute router;
          CallValidateRequest
            (requestValidationInput (echo.Request c) route pathParams);
          CallJSON 400
            {| Code := 400; Message := "Request error";
               Errors := [Error L (RequestError None (Some body) Reason Err)] |}]
         c).
Proof.
  intros Hskip Hcheck Hfind Hne Hvalidate.
  unfold OpenapiB.serve. rewrite Hskip, Hcheck. cbn. rewrite Hfind.
  cbn -[requestValidationInput]. rewrite Hvalidate.
  unfold OpenapiB.convertError. cbn [OpenapiB.convertError_loop].
  rewrite revB_body_error by done.
  rewrite lookup_append_to. by rewrite decide_True by done.
Qed.

(** The second revision does what C2 asks: a schema source that does not
    load makes the construction panic, so that no closure exists. *)
Lemma revB_construction_panics (L : Libs) (config : OpenapiB.Config) (err : error) :
  OpenapiB.SchemaBytes config = EmptyString →
  LoadFromFile L (OpenapiB.Schema config) = inr err →
  ∃ v, OpenapiB.OpenAPIWithConfig L config = OpenapiB.Panicked v.
Proof.
  intros Hbytes Hload. unfold OpenapiB.OpenAPIWithConfig.
  rewrite Hbytes. cbn. destruct (bool_decide (_ = _) && _); [eauto|].
  case_decide; cbn; rewrite ?Hbytes; cbn; rewrite Hload; eauto.
Qed.

(** ** Induction on raw errors *)

(** Structural induction through the causes and the members of a raw
    error; for a request error the members of a multi-error cause are
    covered as well. *)
Lemma error_nested_ind (P : error → Prop) :
  (∀ path Reason, P (SchemaError path Reason)) →
  (∀ p body Reason cause,
     match cause with Some e => P e | None => True end →
     match cause with Some (MultiError errs) => Forall P errs | _ => True end →
     P (RequestError p body Reason cause)) →
  (∀ Reason cause,
     match cause with Some e => P e | None => True end →
     P (ResponseError Reason cause)) →
  (∀ errs, Forall P errs → P (MultiError errs)) →
  P ErrPathNotFound → P ErrMethodNotAllowed →
  (∀ code msg, P (HTTPError code msg)) →
  (∀ s, P (errorString s)) →
  (∀ n, P (otherError n)) →
  ∀ err, P err.
Proof.
  intros HS HR HP HM H1 H2 HH HE HO.
  fix IH 1. intros [path r|p rb r cause|r cause|errs| | |code m|s|n].
  - apply HS.
  - apply HR; [destruct cause as [e|]; [apply IH|exact I]|].
    destruct cause as [[| | |errs'| | | | |]|]; try exact I.
    induction errs' as [|e errs' IHerrs]; constructor; [apply IH|exact IHerrs].
  - apply HP. destruct cause as [e|]; [apply IH|exact I].
  - apply HM. induction errs as [|e errs IHerrs]; constructor; [apply IH|exact IHerrs].
  - exact H1.
  - exact H2.
  - apply HH.
  - apply HE.
  - apply HO.
Qed.

(** ** Messages of one key, in the order of discovery *)

Lemma filed_app (k : string) (es1 es2 : list (string * string)) :
  filed k (es1 ++ es2) = filed k es1 ++ filed k es2.
Proof. unfold filed. by rewrite filter_app, fmap_app. Qed.

Lemma filed_nil (k : string) : filed k [] = [].
Proof. reflexivity. Qed.

Lemma lookup_total_append_to (issues : Issues) (k msg k' : string) :
  append_to issues k [msg] !!! k' = issues !!! k' ++ filed k' [(k, msg)].
Proof.
  rewrite (lookup_total_alt (append_to _ _ _)), lookup_append_to.
  unfold filed. rewrite filter_cons. simpl.
  destruct (decide (k = k')) as [->|Hne]; simpl.
  - done.
  - by rewrite (right_id_L [] (++)), lookup_total_alt.
Qed.

Lemma lookup_total_merge (m1 m2 : Issues) (k : string) :
  merge m1 m2 !!! k = m1 !!! k ++ m2 !!! k.
Proof.
  rewrite !lookup_total_alt, lookup_merge.
  destruct (m1 !! k), (m2 !! k); simpl; try done.
  by rewrite (right_id_L [] (++)).
Qed.

Lemma entriesA_nested (L : Libs) body Reason errs :
  entriesA L (RequestError None body Reason (Some (MultiError errs)))
  = errs ≫= entriesA L.
Proof.
  cbn [entriesA]. induction errs as [|e errs IH]; csimpl; [done|].
  by rewrite IH.
Qed.

(** One turn of the loop appends, under every key, the messages the raw
    error has for that key, in their order. *)
Lemma convertError_step_filed (L : Libs) (err : error) :
  ∀ (issues : Issues) (k : string),
    OpenapiA.convertError_step L issues err !!! k
    = issues !!! k ++ filed k (entriesA L err).
Proof.
  induction err as [path r|p rb r cause _ IH|r cause _|errs _| | |code msg|s|n]
    using error_nested_ind; intros issues k;
    try (cbn [OpenapiA.convertError_step entriesA]; cbv zeta;
         by rewrite lookup_total_append_to).
  destruct p as [p|].
  { cbn [OpenapiA.convertError_step entriesA].
    by rewrite lookup_total_append_to. }
  destruct cause as [[]|];
    try (simpl; destruct rb; by rewrite filed_nil, (right_id_L [] (++))).
  rewrite convertError_step_nested, entriesA_nested.
  rewrite (merge_range_perm _ (OpenapiA.convertError L errs)) by done.
  rewrite lookup_total_merge. f_equal.
  unfold OpenapiA.convertError.
  assert (∀ acc : Issues,
            foldl (OpenapiA.convertError_step L) acc errs !!! k
            = acc !!! k ++ filed k (errs ≫= entriesA L)) as Hloop.
  { induction IH as [|e errs He _ IHl]; intros acc; csimpl.
    - by rewrite filed_nil, (right_id_L [] (++)).
    - rewrite IHl, He, filed_app. by rewrite (assoc_L (++)). }
  rewrite Hloop. by rewrite lookup_total_empty.
Qed.

Lemma convertError_filed (L : Libs) (me : list error) (k : string) :
  OpenapiA.convertError L me !!! k = filed k (me ≫= entriesA L).
Proof.
  unfold OpenapiA.convertError.
  assert (∀ acc : Issues,
            foldl (OpenapiA.convertError_step L) acc me !!! k
            = acc !!! k ++ filed k (me ≫= entriesA L)) as Hloop.
  { induction me as [|e me IHl]; intros acc; csimpl.
    - by rewrite filed_nil, (right_id_L [] (++)).
    - rewrite IHl, convertError_step_filed, filed_app.
      by rewrite (assoc_L (++)). }
  rewrite Hloop. by rewrite lookup_total_empty.
Qed.

Lemma is_Some_append_to (issues : Issues) (k msg k' : string) :
  is_Some (append_to issues k [msg] !! k')
  ↔ is_Some (issues !! k') ∨ k' ∈ [(k, msg)].*1.
Proof.
  rewrite lookup_append_to. simpl. rewrite list_elem_of_singleton.
  destruct (decide (k = k')) as [->|Hne].
  - split; [by right|by eexists].
  - split; [by left|]. intros [?|?]; [done|congruence].
Qed.

Lemma is_Some_merge (m1 m2 : Issues) (k : string) :
  is_Some (merge m1 m2 !! k) ↔ is_Some (m1 !! k) ∨ is_Some (m2 !! k).
Proof.
  rewrite lookup_merge.
  destruct (m1 !! k), (m2 !! k); simpl; split; intros H;
    try (by eexists); try (by left); try (by right);
    try (destruct H as [[? ?]|[? ?]]; done); by destruct H.
Qed.

(** The keys of the map are the keys of the messages met so far. *)
Lemma convertError_step_keys (L : Libs) (err : error) :
  ∀ (issues : Issues) (k : string),
    is_Some (OpenapiA.convertError_step L issues err !! k)
    ↔ is_Some (issues !! k) ∨ k ∈ (entriesA L err).*1.
Proof.
  induction err as [path r|p rb r cause _ IH|r cause _|errs _| | |code msg|s|n]
    using error_nested_ind; intros issues k;
    try (cbn [OpenapiA.convertError_step entriesA]; cbv zeta;
         by rewrite is_Some_append_to).
  destruct p as [p|].
  { cbn [OpenapiA.convertError_step entriesA].
    by rewrite is_Some_append_to. }
  destruct cause as [[]|];
    try (simpl; destruct rb; rewrite elem_of_nil; tauto).
  rewrite convertError_step_nested, entriesA_nested.
  rewrite (merge_range_perm _ (OpenapiA.convertError L errs)) by done.
  rewrite is_Some_merge. apply or_iff_compat_l.
  unfold OpenapiA.convertError.
  assert (∀ acc : Issues,
            is_Some (foldl (OpenapiA.convertError_step L) acc errs !! k)
            ↔ is_Some (acc !! k) ∨ k ∈ (errs ≫= entriesA L).*1) as Hloop.
  { induction IH as [|e errs He _ IHl]; intros acc; csimpl.
    - rewrite elem_of_nil. tauto.
    - rewrite IHl, He, fmap_app, elem_of_app. tauto. }
  rewrite Hloop, lookup_empty, is_Some_alt. tauto.
Qed.

Lemma convertError_keys (L : Libs) (me : list error) (k : string) :
  is_Some (OpenapiA.convertError L me !! k) ↔ k ∈ (me ≫= entriesA L).*1.
Proof.
  unfold OpenapiA.convertError.
  assert (∀ acc : Issues,
            is_Some (foldl (OpenapiA.convertError_step L) acc me !! k)
            ↔ is_Some (acc !! k) ∨ k ∈ (me ≫= entriesA L).*1) as Hloop.
  { induction me as [|e me IHl]; intros acc; csimpl.
    - rewrite elem_of_nil. tauto.
    - rewrite IHl, convertError_step_keys, fmap_app, elem_of_app. tauto. }
  rewrite Hloop, lookup_empty, is_Some_alt. tauto.
Qed.

(** ** The claims on the converter *)

(** C3, as amended.  For a schema-level field error the converter of
    src/openapi.go (lines 135-150) appends the message to the list of the one
    constant key [schema]; the converter of the second revision appends it to
    the list of the dot-joined JSON pointer path, the empty string at the
    document root.  In both the message is [<field>: <reason>], without the
    prefix when the joined path is empty, and every double quote of it is
    replaced by a single quote, nothing else changed. *)
Theorem C3_schema_error_key_and_message (L : Libs) (issues : Issues)
    (path : list string) (Reason : string) :
  OpenapiA.convertError_step L issues (SchemaError path Reason)
  = append_to issues "schema" [spec_schema_message path Reason]
  ∧ OpenapiB.convertError_step L issues (SchemaError path Reason)
    = Some (append_to issues (spec_schema_key path)
              [spec_schema_message path Reason])
  ∧ spec_schema_key [] = EmptyString
  ∧ ∀ i,
      String.get i (spec_schema_message path Reason)
      = (λ a, if decide (a = dquote) then squote else a)
          <$> String.get i
                (if decide (spec_schema_key path = EmptyString) then Reason
                 else spec_schema_key path +:+ ": " +:+ Reason).
Proof.
  split_and!.
  - cbn [OpenapiA.convertError_step].
    destruct (schema_message_computed path Reason) as [-> ->]. done.
  - apply revB_schema_error.
  - done.
  - intros i. unfold spec_schema_message. rewrite ReplaceAll_get.
    destruct (String.get i _) as [a|]; [|done]. simpl. f_equal.
    destruct (Ascii.eqb_spec a dquote); by case_decide.
Qed.

(** C3 as stated fails on src/openapi.go: the error at [/username] is not
    filed under [username]; its message is under [schema]. *)
Lemma C3_field_path_is_not_the_key :
  OpenapiA.convertError Demo.libs [Demo.not_a_string]
    !! spec_schema_key ["username"] = None
  ∧ OpenapiA.convertError Demo.libs [Demo.not_a_string] !! "schema"
    = Some ["username: value must be a string"].
Proof. split; vm_compute; reflexivity. Qed.

(** C7.  For a parameter error the converter of src/openapi.go (lines
    151-157) files, under [<location>.<name>], the whole text of the request
    error as the library renders it: it neither cuts the text at the first
    line nor replaces the quotes.  With kin-openapi's rendering the message
    of the short path parameter of the tests carries the double-quoted name
    and the further lines of the cause, and is not the message the
    specification words. *)
Theorem C7_parameter_message_is_the_whole_error_text (L : Libs) (issues : Issues)
    (p : openapi3.Param) (RequestBody : option openapi3.RequestBody)
    (Reason : string) (Err : option error) :
  OpenapiA.convertError_step L issues (RequestError (Some p) RequestBody Reason Err)
  = append_to issues (spec_parameter_key p)
      [Error L (RequestError (Some p) RequestBody Reason Err)]
  ∧ OpenapiA.convertError Demo.libs [Demo.short_username] !! "path.username"
    = Some ["parameter " +:+ Demo.quoted "username"
            +:+ " in path has an error: minimum string length is 2"
            +:+ Demo.schema_details]
  ∧ spec_parameter_message Demo.libs
      {| openapi3.Name := "username"; openapi3.In := "path" |}
      (MultiError [Demo.too_short])
    = "parameter 'username' in path has an error: minimum string length is 2".
Proof. split_and!; [reflexivity|vm_compute; reflexivity..]. Qed.

(** C4 as stated fails: the same two schema errors, discovered in the two
    possible orders, give two different lists. *)
Lemma C4_discovery_order_shows :
  [Demo.unsupported; Demo.not_a_string] ≡ₚ [Demo.not_a_string; Demo.unsupported]
  ∧ sorted_messages
      (OpenapiA.convertError Demo.libs [Demo.unsupported; Demo.not_a_string])
      (range_keys
         (OpenapiA.convertError Demo.libs [Demo.unsupported; Demo.not_a_string]))
    ≠ sorted_messages
        (OpenapiA.convertError Demo.libs [Demo.not_a_string; Demo.unsupported])
        (range_keys
           (OpenapiA.convertError Demo.libs [Demo.not_a_string; Demo.unsupported])).
Proof. split; [apply perm_swap|]. vm_compute. discriminate. Qed.

(** C4, as amended.  The list sent (src/openapi.go:104-118) is the
    concatenation of the per-key message lists along the keys of the map in
    ascending order, each key once, whatever order the maps are iterated in,
    both where the names are collected and where a nested result is merged.
    The order of two raw errors matters only when they share a key:
    exchanging two neighbours with disjoint keys changes neither the map nor
    the list.  The messages that share a key keep the order of discovery:
    the list of a key is made of the messages the raw errors have for that
    key, in the order in which the converter comes to them, the members of a
    nested multi-error at the place of the request error that carries them;
    the keys are the keys of those messages; so the list sent is the
    discovered messages grouped by key, the groups in ascending order of
    their keys and each group in the order of discovery. *)
Theorem C4_sorted_keys_and_discovery_order (L : Libs) (me : list error) :
  let issues := OpenapiA.convertError L me in
  let keys := sort_Strings (range_keys issues) in
  let discovered := me ≫= entriesA L in
  sorted_messages issues (range_keys issues) = mjoin ((λ k, issues !!! k) <$> keys)
  ∧ Sorted String.le keys
  ∧ NoDup keys
  ∧ (∀ k, k ∈ keys ↔ is_Some (issues !! k))
  ∧ (∀ names, names ≡ₚ range_keys issues →
       sorted_messages issues names = sorted_messages issues (range_keys issues))
  ∧ (∀ acc sub kvs, kvs ≡ₚ map_to_list sub → merge_range acc kvs = merge acc sub)
  ∧ (∀ me1 e1 e2 me2,
       me = me1 ++ e1 :: e2 :: me2 →
       dom (OpenapiA.convertError L [e1]) ## dom (OpenapiA.convertError L [e2]) →
       OpenapiA.convertError L (me1 ++ e2 :: e1 :: me2) = issues)
  ∧ (∀ k, issues !!! k = filed k discovered)
  ∧ (∀ k, k ∈ keys ↔ k ∈ discovered.*1)
  ∧ sorted_messages issues (range_keys issues)
    = keys ≫= (λ k, filed k discovered).
Proof.
  intros issues keys discovered.
  assert (∀ k, issues !!! k = filed k discovered) as Hfiled
    by (intros k; apply convertError_filed).
  split_and!.
  - done.
  - apply Sorted_merge_sort, _.
  - subst keys. unfold sort_Strings. rewrite merge_sort_Permutation.
    apply NoDup_fst_map_to_list.
  - intros k. subst keys. unfold sort_Strings. rewrite merge_sort_Permutation.
    apply elem_of_range_keys.
  - intros names Hp. unfold sorted_messages. by rewrite (sort_Strings_perm _ _ Hp).
  - intros acc sub kvs. apply merge_range_perm.
  - intros me1 e1 e2 me2 -> Hd. subst issues.
    rewrite !convertError_app.
    rewrite (convertError_cons L e2), (convertError_cons L e1 me2).
    rewrite (convertError_cons L e1 (e2 :: me2)), (convertError_cons L e2 me2).
    rewrite <-!(merge_assoc (OpenapiA.convertError L [_])).
    by rewrite (merge_comm _ _ Hd).
  - exact Hfiled.
  - intros k. subst keys. unfold sort_Strings. rewrite merge_sort_Permutation.
    rewrite elem_of_range_keys. apply convertError_keys.
  - unfold sorted_messages, flatten. fold keys.
    induction keys as [|k keys' IHk]; csimpl; [done|].
    by rewrite IHk, Hfiled.
Qed.

(** ** The exemption table *)

(** C8 as stated fails: the table is not looked up with the path of the
    request.  [POST /validation/a], whose path and method are paired in the
    table, reaches a route that Echo has registered as
    [/validation/:username]; the middleware looks up that pattern
    ([c.Path()], src/openapi.go:53), finds nothing, validates the request and
    answers 422 for the short user name: the next handler is not called. *)
Lemma C8_request_path_is_not_looked_up :
  OpenapiA.ExemptRoutes Cases.exempt_by_url
    !! http.URL (echo.Request Cases.post_short_username) = Some ["POST"]
  ∧ http.Method (echo.Request Cases.post_short_username) ∈ ["POST"]
  ∧ OpenapiA.OpenAPIWithConfig Demo.libs Cases.exempt_by_url Demo.ok
      Cases.post_short_username
    = Return None
        (echo.record_all
           (OpenapiA.setup_calls Cases.exempt_by_url (openapi3.Doc 0)
              (routers.RouterOf 0)
            ++ [CallValidateRequest
                  (requestValidationInput
                     (Demo.request "POST" "/validation/a" EmptyString)
                     (routers.RouteOf 5) {[ "username" := "a" ]});
                CallJSON 422
                  {| Code := 422; Message := "Validation error";
                     Errors := [Demo.render Demo.short_username] |}])
           Cases.post_short_username)
  ∧ OpenapiA.OpenAPIWithConfig Demo.libs Cases.exempt_by_url Demo.ok
      Cases.post_short_username
    ≠ Demo.ok Cases.post_short_username.
Proof.
  split_and!; [vm_compute; reflexivity|left|vm_compute; reflexivity|].
  vm_compute. discriminate.
Qed.

(** C8, as amended.  A request whose route pattern (the path Echo has the
    matched route registered under, [c.Path()]) and method are paired in the
    exemption table is handed to the next handler as it came: the result is
    the next handler's, on the unchanged context, so that nothing was loaded,
    resolved, validated, stored or written before, whatever the collaborators
    would have answered. *)
Theorem C8_exempt_request_goes_to_next_handler (L : Libs) (config : OpenapiA.Config)
    (next : HandlerFunc) (c : echo.Context) (methods : list string) :
  OpenapiA.ExemptRoutes config !! echo.Path c = Some methods →
  http.Method (echo.Request c) ∈ methods →
  OpenapiA.OpenAPIWithConfig L config next c = next c.
Proof.
  intros Hpath Hmethod.
  destruct (OpenAPIWithConfig_serve L config) as (config' & -> & HS & HE).
  unfold OpenapiA.serve. destruct (default _ _ c); [done|].
  rewrite HE. by rewrite (proj2 (check_spec _ _ _)) by eauto.
Qed.

(** The same holds of the closure of the second revision. *)
Lemma revB_exempt_request_goes_to_next_handler (L : Libs)
    (skipper : echo.Context → bool) (config : OpenapiB.Config)
    (router : routers.Router) (next : HandlerFunc) (c : echo.Context)
    (methods : list string) :
  OpenapiB.ExemptRoutes config !! echo.Path c = Some methods →
  http.Method (echo.Request c) ∈ methods →
  OpenapiB.serve L skipper config router next c = next c.
Proof.
  intros Hpath Hmethod. unfold OpenapiB.serve. destruct (skipper c); [done|].
  by rewrite (proj2 (check_spec _ _ _)) by eauto.
Qed.

(** ** The response helper *)

(** C9.  With status 204 both revisions of [validate] return what
    [c.NoContent(204)] returns on the context as it came, for every handler
    configuration, content type, payload and store: the only call made is
    that one; the store is not read, nothing is marshaled and the response is
    not validated. *)
Theorem C9_no_content_returns_at_once (L : Libs)
    (convertError : list error → option Issues)
    (hA : HandlerA.Handler) (hB : HandlerB.Handler) (c : echo.Context)
    (contentType : string) (v : any) :
  HandlerA.validate L hA c http.StatusNoContent contentType v
  = NoContent http.StatusNoContent c
  ∧ HandlerA.Validate L hA c http.StatusNoContent v
    = NoContent http.StatusNoContent c
  ∧ HandlerB.validate L convertError hB c http.StatusNoContent contentType v
    = NoContent http.StatusNoContent c
  ∧ HandlerB.Validate L convertError hB c http.StatusNoContent v
    = NoContent http.StatusNoContent c
  ∧ NoContent http.StatusNoContent c
    = Return None (echo.record (CallNoContent 204) c).
Proof. by split_and!. Qed.

(** C10.  With a status other than 204, when the store holds nothing, or a
    value of another type, under the configured key, both revisions return
    the error "validator key is wrong type" right after reading the store:
    nothing is marshaled, the response is not validated and nothing is
    written.  (The second revision has assigned the status field of the
    response before; the response is not written.) *)
Theorem C10_missing_validation_input_is_an_error (L : Libs)
    (convertError : list error → option Issues)
    (hA : HandlerA.Handler) (hB : HandlerB.Handler) (c : echo.Context)
    (code : Z) (contentType : string) (v : any) :
  code ≠ http.StatusNoContent →
  no_validation_input
    (echo.store c !! HandlerA.ValidatorKey (HandlerA.Config hA)) →
  no_validation_input
    (echo.store c !! HandlerB.ValidatorKey (HandlerB.Config hB)) →
  HandlerA.validate L hA c code contentType v
  = Return (Some (errorString "validator key is wrong type"))
      (echo.record (CallGet (HandlerA.ValidatorKey (HandlerA.Config hA))) c)
  ∧ HandlerB.validate L convertError hB c code contentType v
    = Return (Some (errorString "validator key is wrong type"))
        (echo.record (CallGet (HandlerB.ValidatorKey (HandlerB.Config hB)))
           (echo.set_Status code c)).
Proof.
  intros Hcode HA HB. unfold HandlerA.validate, HandlerB.validate.
  rewrite !bool_decide_false by done. cbn.
  split.
  - destruct (echo.store c !! HandlerA.ValidatorKey _) as [[input|]|];
      [destruct (HA input eq_refl)|done..].
  - destruct (echo.store c !! HandlerB.ValidatorKey _) as [[input|]|];
      [destruct (HB input eq_refl)|done..].
Qed.

(** The first revision returns an error for every failure of
    [ValidateResponse], before anything is written. *)
Lemma revA_invalid_response_not_sent (L : Libs) (h : HandlerA.Handler)
    (c : echo.Context) (code : Z) (contentType : string) (v : any)
    (input : openapi3filter.RequestValidationInput) (b : bytes) (err : error) :
  code ≠ http.StatusNoContent →
  echo.store c !! HandlerA.ValidatorKey (HandlerA.Config h)
  = Some (echo.ValidationInput input) →
  HasPrefix contentType HandlerA.ApplicationJSON = true →
  json_Marshal L v = inl b →
  let c1 :=
    echo.Header_Add "Content-Type" contentType
      (echo.set_Status code
         (echo.record (CallJSONMarshal v)
            (echo.record (CallGet (HandlerA.ValidatorKey (HandlerA.Config h))) c))) in
  let i := HandlerA.responseValidationInput h input c1 b in
  ValidateResponse L i = Some err →
  HandlerA.validate L h c code contentType v
  = Return (Some (errorString ("failed validating response: " +:+ Error L err)))
      (echo.record_all [CallValidateResponse i; CallDebug (Error L err)] c1).
Proof.
  intros Hcode Hstore Hjson Hmarshal c1 i Hval. unfold HandlerA.validate.
  rewrite bool_decide_false by done. cbn. rewrite Hstore, Hjson, Hmarshal. cbn.
  fold c1. fold i. by rewrite Hval.
Qed.

(** C6.  In the second revision of [validate] (src/handler.go:252-281) a
    failed validation of the response is not always an error: when
    [ValidateResponse] returns a response error whose cause is not a
    multi-error (a body of the wrong JSON type is reported so, with a single
    schema error as the cause), no case of the switch returns, and the body
    is written to the client with the status the handler asked for. *)
Theorem C6_invalid_response_written (L : Libs)
    (convertError : list error → option Issues) (h : HandlerB.Handler)
    (c : echo.Context) (code : Z) (contentType : string) (v : any)
    (input : openapi3filter.RequestValidationInput) (b : bytes)
    (Reason : string) (Err : option error) :
  code ≠ http.StatusNoContent →
  echo.store c !! HandlerB.ValidatorKey (HandlerB.Config h)
  = Some (echo.ValidationInput input) →
  HasPrefix contentType HandlerB.ApplicationJSON = true →
  json_Marshal L v = inl b →
  (∀ me, Err ≠ Some (MultiError me)) →
  let c1 :=
    echo.record (CallJSONMarshal v)
      (echo.Header_Add "Content-Type" contentType
         (echo.record (CallGet (HandlerB.ValidatorKey (HandlerB.Config h)))
            (echo.set_Status code c))) in
  let i := HandlerB.responseValidationInput h input c1 b in
  ValidateResponse L i = Some (ResponseError Reason Err) →
  HandlerB.validate L convertError h c code contentType v
  = Return None
      (echo.record_all
         [CallValidateResponse i;
          CallBlob code (HandlerB.ContentType (HandlerB.Config h)) b] c1).
Proof.
  intros Hcode Hstore Hjson Hmarshal Hne c1 i Hval. unfold HandlerB.validate.
  rewrite bool_decide_false by done. cbn. rewrite Hstore, Hjson. cbn.
  rewrite Hmarshal. fold c1. fold i. rewrite Hval.
  destruct Err as [[]|]; try done. by edestruct Hne.
Qed.


(** ** The tests of the repository, run on both revisions *)

(** "no body": the second revision answers 400 with the text of the error,
    as openapi_test.go expects. *)
Example revB_test_no_body :
  ∃ m, OpenapiB.OpenAPI Demo.libs Demo.fixture = OpenapiB.Built m
       ∧ ∃ c, m Demo.ok
                (Demo.context "/validation"
                   (Demo.request "POST" "/validation" EmptyString))
              = Return None c
              ∧ last (echo.calls c)
                = Some (CallJSON 400
                          {| Code := 400; Message := "Request error";
                             Errors := ["request body has an error: value is required but missing"] |}).
Proof. eexists. split; [reflexivity|]. eexists. split; vm_compute; reflexivity. Qed.

(** "body error multiple": the two messages, ordered by their keys. *)
Example revB_test_body_error_multiple :
  ∃ m, OpenapiB.OpenAPI Demo.libs Demo.fixture = OpenapiB.Built m
       ∧ ∃ c, m Demo.ok
                (Demo.context "/validation"
                   (Demo.request "POST" "/validation" Demo.two_mistakes))
              = Return None c
              ∧ last (echo.calls c)
                = Some (CallJSON 422
                          {| Code := 422; Message := "Validation error";
                             Errors := ["property 'invalid' is unsupported";
                                        "username: value must be a string"] |}).
Proof. eexists. split; [reflexivity|]. eexists. split; vm_compute; reflexivity. Qed.

(** "path error": the first line of the cause, in single quotes. *)
Example revB_test_path_error :
  ∃ m, OpenapiB.OpenAPI Demo.libs Demo.fixture = OpenapiB.Built m
       ∧ ∃ c, m Demo.ok
                (Demo.context "/validation/:username"
                   (Demo.request "POST" "/validation/a" "{}"))
              = Return None c
              ∧ last (echo.calls c)
                = Some (CallJSON 422
                          {| Code := 422; Message := "Validation error";
                             Errors := ["parameter 'username' in path has an error: minimum string length is 2"] |}).
Proof. eexists. split; [reflexivity|]. eexists. split; vm_compute; reflexivity. Qed.

(** The exempt route: the next handler's result, on the context as it came. *)
Example revB_test_exempt :
  ∃ m, OpenapiB.OpenAPIWithConfig Demo.libs (Demo.configB Demo.fixture)
       = OpenapiB.Built m
       ∧ m Demo.ok (Demo.context "/exempt" (Demo.request "GET" "/exempt" EmptyString))
         = Demo.ok (Demo.context "/exempt" (Demo.request "GET" "/exempt" EmptyString)).
Proof. eexists. split; [reflexivity|]. vm_compute; reflexivity. Qed.

(** A resolver error that is neither sentinel comes back as it is, from the
    first revision. *)
Example revA_other_resolver_error :
  ∃ c, OpenapiA.OpenAPI Demo.libs Demo.fixture Demo.ok
         (Demo.context "/broken" (Demo.request "GET" "/broken" EmptyString))
       = Return (Some (otherError 7)) c.
Proof. eexists. vm_compute; reflexivity. Qed.

(** "invalid path": the construction of the second revision panics. *)
Example revB_test_invalid_path :
  OpenapiB.OpenAPI Demo.libs "/invalid/path"
  = OpenapiB.Panicked
      "failed loading schema file: open /invalid/path: no such file or directory".
Proof. vm_compute; reflexivity. Qed.

(** The invalid response of handler_test.go (an object with an unsupported
    property) is reported with a multi-error as the cause, and the second
    revision of [validate] returns an error for it without writing. *)
Lemma revB_multi_error_response_not_sent (L : Libs)
    (convertError : list error → option Issues) (h : HandlerB.Handler)
    (c : echo.Context) (code : Z) (contentType : string) (v : any)
    (input : openapi3filter.RequestValidationInput) (b : bytes)
    (Reason : string) (me : list error) (issues : Issues) :
  code ≠ http.StatusNoContent →
  echo.store c !! HandlerB.ValidatorKey (HandlerB.Config h)
  = Some (echo.ValidationInput input) →
  HasPrefix contentType HandlerB.ApplicationJSON = true →
  json_Marshal L v = inl b →
  convertError me = Some issues →
  let c1 :=
    echo.record (CallJSONMarshal v)
      (echo.Header_Add "Content-Type" contentType
         (echo.record (CallGet (HandlerB.ValidatorKey (HandlerB.Config h)))
            (echo.set_Status code c))) in
  let i := HandlerB.responseValidationInput h input c1 b in
  ValidateResponse L i = Some (ResponseError Reason (Some (MultiError me))) →
  HandlerB.validate L convertError h c code contentType v
  = Return
      (Some (errorString
               ("failed validating response: "
                +:+ Join (sorted_messages issues (range_keys issues)) "; ")))
      (echo.record (CallValidateResponse i) c1).
Proof.
  intros Hcode Hstore Hjson Hmarshal Hconv c1 i Hval. unfold HandlerB.validate.
  rewrite bool_decide_false by done. cbn. rewrite Hstore, Hjson. cbn.
  rewrite Hmarshal. fold c1. fold i. by rewrite Hval, Hconv.
Qed.

(** Route resolution in the second revision, where [errors.Is] decides. *)
Lemma revB_route_resolution_errors (L : Libs) (skipper : echo.Context → bool)
    (config : OpenapiB.Config) (router : routers.Router) (next : HandlerFunc)
    (c : echo.Context) (err : error) :
  skipper c = false →
  check (echo.Path c) (http.Method (echo.Request c)) (OpenapiB.ExemptRoutes config)
  = false →
  FindRoute L router (echo.Request c) = inr err →
  ∃ c',
    OpenapiB.serve L skipper config router next c
    = Return
        (Some (if errors_Is L err ErrPathNotFound
               then HTTPError 404 "Path not found"
               else if errors_Is L err ErrMethodNotAllowed
               then HTTPError 405 "Method not allowed"
               else err)) c'.
Proof.
  intros Hskip Hcheck Hfind. unfold OpenapiB.serve.
  rewrite Hskip, Hcheck. cbn. rewrite Hfind.
  destruct (errors_Is L err ErrPathNotFound); [eauto|].
  destruct (errors_Is L err ErrMethodNotAllowed); eauto.
Qed.

(** ** The theorems at the inputs of the tests *)

(** The empty body of the test "no body". *)
Lemma C1_missing_body_witness :
  OpenapiA.convertError Demo.libs [Demo.missing_body] = ∅
  ∧ OpenapiA.OpenAPIWithConfig Demo.libs (Demo.configA Demo.fixture) Demo.ok
      (Demo.context "/validation" (Demo.request "POST" "/validation" EmptyString))
    = Return None
        (echo.record_all
           (OpenapiA.setup_calls (Demo.configA Demo.fixture) (openapi3.Doc 0)
              (routers.RouterOf 0)
            ++ [CallValidateRequest
                  (requestValidationInput
                     (Demo.request "POST" "/validation" EmptyString)
                     (routers.RouteOf 4) ∅);
                CallJSON 422
                  {| Code := 422; Message := "Validation error"; Errors := [] |}])
           (Demo.context "/validation"
              (Demo.request "POST" "/validation" EmptyString))).
Proof.
  apply (C1_missing_body_answered_422_without_message Demo.libs
           (Demo.configA Demo.fixture) Demo.ok
           (Demo.context "/validation" (Demo.request "POST" "/validation" EmptyString))
           (openapi3.Doc 0) (routers.RouterOf 0) (routers.RouteOf 4) ∅
           {| openapi3.Required := true |} EmptyString
           (Some (errorString "value is required but missing"))).
  - repeat split; vm_compute; reflexivity.
  - vm_compute; reflexivity.
  - intros errs; discriminate.
  - vm_compute; reflexivity.
Defined.

(** The schema path of the test "invalid path". *)
Lemma C2_invalid_path_witness :
  OpenapiA.OpenAPIWithConfig Demo.libs (Demo.configA "/invalid/path") Demo.ok
    (Demo.context "/" (Demo.request "GET" "/" EmptyString))
  = Return (Some (otherError 0))
      (echo.record_all
         [CallLoadFromFile "/invalid/path";
          CallErrorf ("error loading schema file: "
                      +:+ "open /invalid/path: no such file or directory")]
         (Demo.context "/" (Demo.request "GET" "/" EmptyString))).
Proof.
  apply (C2_schema_loaded_on_the_request_path Demo.libs
           (Demo.configA "/invalid/path") Demo.ok
           (Demo.context "/" (Demo.request "GET" "/" EmptyString))
           (otherError 0)).
  - vm_compute; reflexivity.
  - reflexivity.
  - vm_compute; reflexivity.
Defined.

(** The request of the test "path not found". *)
Lemma C5_path_not_found_witness :
  ∃ reply,
    OpenapiA.OpenAPIWithConfig Demo.libs (Demo.configA Demo.fixture) Demo.ok
      (Demo.context "/notfound" (Demo.request "GET" "/notfound" EmptyString))
    = Return (Some reply)
        (echo.record_all
           (OpenapiA.setup_calls (Demo.configA Demo.fixture) (openapi3.Doc 0)
              (routers.RouterOf 0)
            ++ [CallDebugf ("error finding route for " +:+ "/notfound" +:+ ": "
                            +:+ Error Demo.libs ErrPathNotFound)])
           (Demo.context "/notfound" (Demo.request "GET" "/notfound" EmptyString)))
    ∧ (ErrPathNotFound = ErrPathNotFound → reply = HTTPError 404 "Path not found")
    ∧ (ErrPathNotFound = ErrMethodNotAllowed
       → reply = HTTPError 405 "Method not allowed")
    ∧ (ErrPathNotFound ≠ ErrPathNotFound → ErrPathNotFound ≠ ErrMethodNotAllowed
       → reply = ErrPathNotFound).
Proof.
  apply (C5_route_resolution_errors Demo.libs (Demo.configA Demo.fixture) Demo.ok
           (Demo.context "/notfound" (Demo.request "GET" "/notfound" EmptyString))
           (openapi3.Doc 0) (routers.RouterOf 0) ErrPathNotFound).
  - repeat split; vm_compute; reflexivity.
  - vm_compute; reflexivity.
Defined.

(** A parameter error and a schema error have different keys: their order
    of discovery does not show. *)
Lemma C4_disjoint_keys_witness :
  OpenapiA.convertError Demo.libs [Demo.unsupported; Demo.short_username]
  = OpenapiA.convertError Demo.libs [Demo.short_username; Demo.unsupported].
Proof.
  destruct (C4_sorted_keys_and_discovery_order Demo.libs
              [Demo.short_username; Demo.unsupported])
    as (_ & _ & _ & _ & _ & _ & Hswap & _).
  apply (Hswap [] Demo.short_username Demo.unsupported []).
  - reflexivity.
  - apply (@bool_decide_unpack _ (gset_disjoint_dec _ _)). vm_compute. exact I.
Defined.

(** The string "ok" returned for the route [/], whose schema is an object. *)
Lemma C6_wrong_type_witness :
  HandlerB.validate Demo.libs (λ me, Some (OpenapiA.convertError Demo.libs me))
    HandlerB.NewHandler
    (Demo.validated "/" (Demo.request "GET" "/" EmptyString))
    200 "application/json" (any_string "ok")
  = Return None
      (echo.record_all
         [CallGet "validator"; CallJSONMarshal (any_string "ok");
          CallValidateResponse
            {| openapi3filter.resp_RequestValidationInput :=
                 requestValidationInput (Demo.request "GET" "/" EmptyString)
                   (routers.RouteOf 0) ∅;
               openapi3filter.resp_Status := 200;
               openapi3filter.resp_Header := [("Content-Type", "application/json")];
               openapi3filter.resp_Options :=
                 {| openapi3filter.ExcludeRequestBody := false;
                    openapi3filter.ExcludeResponseBody := false;
                    openapi3filter.IncludeResponseStatus := true;
                    openapi3filter.MultiError := true;
                    openapi3filter.AuthenticationFunc_ := None |};
               openapi3filter.resp_Body := Demo.quoted "ok" |};
          CallBlob 200 "application/json" (Demo.quoted "ok")]
         (echo.Header_Add "Content-Type" "application/json"
            (echo.set_Status 200
               (Demo.validated "/" (Demo.request "GET" "/" EmptyString))))).
Proof.
  apply (C6_invalid_response_written Demo.libs
           (λ me, Some (OpenapiA.convertError Demo.libs me)) HandlerB.NewHandler
           (Demo.validated "/" (Demo.request "GET" "/" EmptyString))
           200 "application/json" (any_string "ok")
           (requestValidationInput (Demo.request "GET" "/" EmptyString)
              (routers.RouteOf 0) ∅)
           (Demo.quoted "ok") "response body doesn't match schema"
           (Some (SchemaError [] "value must be an object"))).
  - discriminate.
  - vm_compute; reflexivity.
  - vm_compute; reflexivity.
  - vm_compute; reflexivity.
  - intros me; discriminate.
  - vm_compute; reflexivity.
Defined.

(** The request of the test of the exempt routes. *)
Lemma C8_exempt_witness :
  OpenapiA.OpenAPIWithConfig Demo.libs (Demo.configA "/invalid/path") Demo.ok
    (Demo.context "/exempt" (Demo.request "GET" "/exempt" EmptyString))
  = Demo.ok (Demo.context "/exempt" (Demo.request "GET" "/exempt" EmptyString)).
Proof.
  apply (C8_exempt_request_goes_to_next_handler Demo.libs
           (Demo.configA "/invalid/path") Demo.ok
           (Demo.context "/exempt" (Demo.request "GET" "/exempt" EmptyString))
           ["GET"]).
  - vm_compute; reflexivity.
  - left.
Defined.

(** A handler called on a context the middleware never stored anything in. *)
Lemma C10_empty_store_witness :
  HandlerA.validate Demo.libs HandlerA.NewHandler
    (Demo.context "/" (Demo.request "GET" "/" EmptyString)) 200
    "application/json" (any_string "ok")
  = Return (Some (errorString "validator key is wrong type"))
      (echo.record (CallGet "validator")
         (Demo.context "/" (Demo.request "GET" "/" EmptyString)))
  ∧ HandlerB.validate Demo.libs (λ me, Some (OpenapiA.convertError Demo.libs me))
      HandlerB.NewHandler
      (Demo.context "/" (Demo.request "GET" "/" EmptyString)) 200
      "application/json" (any_string "ok")
    = Return (Some (errorString "validator key is wrong type"))
        (echo.record (CallGet "validator")
           (echo.set_Status 200
              (Demo.context "/" (Demo.request "GET" "/" EmptyString)))).
Proof.
  apply (C10_missing_validation_input_is_an_error Demo.libs
           (λ me, Some (OpenapiA.convertError Demo.libs me))
           HandlerA.NewHandler HandlerB.NewHandler
           (Demo.context "/" (Demo.request "GET" "/" EmptyString)) 200
           "application/json" (any_string "ok")).
  - discriminate.
  - intros input; vm_compute; discriminate.
  - intros input; vm_compute; discriminate.
Defined.

(** * Further properties *)

(** ** No message is lost, none is sent twice *)

Lemma all_messages_empty : all_messages ∅ = [].
Proof. unfold all_messages. by rewrite map_to_list_empty. Qed.

Lemma all_messages_append_to (m : Issues) (k : string) (msgs : list string) :
  all_messages (append_to m k msgs) ≡ₚ all_messages m ++ msgs.
Proof.
  unfold all_messages, append_to. rewrite lookup_total_alt.
  destruct (m !! k) as [old|] eqn:E; simpl.
  - rewrite <-insert_delete_eq.
    rewrite map_to_list_insert by apply lookup_delete_eq.
    rewrite <-(map_to_list_delete m k old E). csimpl.
    rewrite <-(assoc_L (++)). rewrite (comm (++) msgs).
    by rewrite !(assoc_L (++)).
  - rewrite map_to_list_insert by done. csimpl. by rewrite (comm (++)).
Qed.

Lemma all_messages_merge_range (m : Issues) (kvs : list (string * list string)) :
  all_messages (merge_range m kvs) ≡ₚ all_messages m ++ mjoin kvs.*2.
Proof.
  revert m. induction kvs as [|[k v] kvs IH]; intros m; csimpl.
  - by rewrite (right_id_L [] (++)).
  - unfold merge_range in *. simpl. rewrite IH, all_messages_append_to.
    by rewrite (assoc_L (++)).
Qed.

(** Reading the map back along its own keys gives all its messages. *)
Lemma flatten_range_keys (m : Issues) :
  flatten m (range_keys m) = all_messages m.
Proof.
  unfold flatten, range_keys, all_messages. f_equal.
  rewrite <-list_fmap_compose. apply list_fmap_ext.
  intros i [k v] Hi. simpl. apply lookup_total_correct.
  apply elem_of_map_to_list. by eapply list_elem_of_lookup_2.
Qed.

Lemma sorted_messages_all (m : Issues) (names : list string) :
  names ≡ₚ range_keys m → sorted_messages m names ≡ₚ all_messages m.
Proof.
  intros Hp. rewrite <-flatten_range_keys. unfold sorted_messages, flatten.
  unfold sort_Strings. by rewrite merge_sort_Permutation, Hp.
Qed.




(** ** The converter of the second revision, continued *)

Lemma revB_nested (L : Libs) (issues : Issues) body Reason errs :
  OpenapiB.convertError_step L issues
    (RequestError None body Reason (Some (MultiError errs)))
  = match OpenapiB.convertError L errs with
    | Some sub => Some (merge_range issues (map_to_list sub))
    | None => None
    end.
Proof.
  cbn [OpenapiB.convertError_step]. unfold OpenapiB.convertError.
  match goal with
  | |- match ?loop ∅ errs with _ => _ end = _ =>
      assert (∀ acc, loop acc errs = OpenapiB.convertError_loop L acc errs) as ->
  end; [|done].
  induction errs as [|e errs IH]; intros acc; simpl; [done|].
  destruct (OpenapiB.convertError_step L acc e); [apply IH|done].
Qed.

Lemma messagesB_nested (L : Libs) body Reason errs :
  messagesB L (RequestError None body Reason (Some (MultiError errs)))
  = errs ≫= messagesB L.
Proof.
  destruct body; cbn [messagesB];
    (induction errs as [|e errs IH]; csimpl; [done|]; by rewrite IH).
Qed.

Lemma revB_loop_messages (L : Libs) (me : list error) :
  Forall (λ e, ∀ m m', OpenapiB.convertError_step L m e = Some m' →
                       all_messages m' ≡ₚ all_messages m ++ messagesB L e) me →
  ∀ acc m', OpenapiB.convertError_loop L acc me = Some m' →
            all_messages m' ≡ₚ all_messages acc ++ (me ≫= messagesB L).
Proof.
  induction 1 as [|e me He _ IH]; intros acc m' Hloop; csimpl in *.
  - simplify_eq. by rewrite (right_id_L [] (++)).
  - destruct (OpenapiB.convertError_step L acc e) as [acc'|] eqn:E; [|done].
    rewrite (IH _ _ Hloop), (He _ _ E). by rewrite (assoc_L (++)).
Qed.

Lemma revB_step_messages (L : Libs) (err : error) :
  ∀ m m', OpenapiB.convertError_step L m err = Some m' →
          all_messages m' ≡ₚ all_messages m ++ messagesB L err.
Proof.
  induction err as [path r|p rb r cause _ IH|r cause _|errs _| | |code msg|s|n]
    using error_nested_ind; intros m m' Hstep;
    try (cbn [OpenapiB.convertError_step messagesB] in *; simplify_eq;
         by rewrite all_messages_append_to).
  - rewrite revB_schema_error in Hstep. simplify_eq.
    by rewrite all_messages_append_to.
  - destruct p as [p|].
    { destruct cause as [cause|]; [|done].
      rewrite revB_parameter_error in Hstep. simplify_eq.
      by rewrite all_messages_append_to. }
    destruct cause as [[| | |errs| | | | |]|];
      try (destruct rb; cbn [OpenapiB.convertError_step messagesB] in *;
           simplify_eq;
           by rewrite ?all_messages_append_to, ?(right_id_L [] (++))).
    rewrite revB_nested in Hstep. rewrite messagesB_nested.
    destruct (OpenapiB.convertError L errs) as [sub|] eqn:E; [|done].
    simpl in Hstep. simplify_eq.
    rewrite all_messages_merge_range. f_equiv.
    fold (all_messages sub).
    rewrite (revB_loop_messages L errs IH _ _ E).
    by rewrite all_messages_empty.
Qed.

(** X2.  The second revision, when its converter does not panic, computes a
    list that is a rearrangement of the messages of the raw errors, nested
    ones included: one message per schema error, per parameter error and per
    unrecognised error, and one per request-body error without nested
    multi-error. *)
Theorem X2_second_revision_keeps_each_message_once (L : Libs) (me : list error)
    (issues : Issues) :
  OpenapiB.convertError L me = Some issues →
  sorted_messages issues (range_keys issues) ≡ₚ me ≫= messagesB L.
Proof.
  intros Hconv. rewrite sorted_messages_all by done.
  rewrite (revB_loop_messages L me) by
    (done || apply Forall_forall; intros; by eapply revB_step_messages).
  by rewrite all_messages_empty.
Qed.

(** ** The converter only appends *)

Lemma extends_refl (m : Issues) : extends m m.
Proof. intros k. split; [done|]. reflexivity. Qed.

Lemma extends_trans (m1 m2 m3 : Issues) :
  extends m1 m2 → extends m2 m3 → extends m1 m3.
Proof.
  intros H12 H23 k. destruct (H12 k) as [? ?], (H23 k) as [? ?].
  split; [auto|]. by etrans.
Qed.

Lemma extends_append_to (m : Issues) (k : string) (msgs : list string) :
  extends m (append_to m k msgs).
Proof.
  intros k'. rewrite !lookup_total_alt, lookup_append_to.
  case_decide; subst; simpl.
  - split; [eauto|]. rewrite lookup_total_alt. by apply prefix_app_r.
  - done.
Qed.

Lemma extends_merge_range (m : Issues) (kvs : list (string * list string)) :
  extends m (merge_range m kvs).
Proof.
  revert m. induction kvs as [|[k v] kvs IH]; intros m.
  - apply extends_refl.
  - eapply extends_trans; [apply (extends_append_to m k v)|apply IH].
Qed.

Lemma revB_step_extends (L : Libs) (m m' : Issues) (err : error) :
  OpenapiB.convertError_step L m err = Some m' → extends m m'.
Proof.
  destruct err as [path r|[p|] rb r [cause|]|r cause|errs| | |code msg|s|n];
    intros Hstep;
    try (cbn [OpenapiB.convertError_step] in Hstep; simplify_eq;
         by apply extends_append_to).
  - destruct cause as [| | |errs| | | | |];
      try (destruct rb; cbn [OpenapiB.convertError_step] in Hstep; simplify_eq;
           by (apply extends_append_to || apply extends_refl)).
    rewrite revB_nested in Hstep.
    destruct (OpenapiB.convertError L errs); simplify_eq.
    apply extends_merge_range.
  - destruct rb; cbn [OpenapiB.convertError_step] in Hstep; simplify_eq;
      by (apply extends_append_to || apply extends_refl).
Qed.

Lemma revB_loop_extends (L : Libs) (me : list error) (m m' : Issues) :
  OpenapiB.convertError_loop L m me = Some m' → extends m m'.
Proof.
  revert m. induction me as [|e me IH]; intros m Hloop; simpl in Hloop.
  - simplify_eq. apply extends_refl.
  - destruct (OpenapiB.convertError_step L m e) as [m1|] eqn:E; [|done].
    eapply extends_trans; [by eapply revB_step_extends|by apply IH].
Qed.

Lemma revB_loop_app (L : Libs) (me1 me2 : list error) (m : Issues) :
  OpenapiB.convertError_loop L m (me1 ++ me2)
  = match OpenapiB.convertError_loop L m me1 with
    | Some m1 => OpenapiB.convertError_loop L m1 me2
    | None => None
    end.
Proof.
  revert m. induction me1 as [|e me1 IH]; intros m; simpl; [done|].
  destruct (OpenapiB.convertError_step L m e); [apply IH|done].
Qed.

(** X3.  In the second revision one request-body error without nested
    multi-error, anywhere among the raw errors, decides the answer: status
    400 "Request error" with only the messages filed under [body], its own
    text among them; the messages of every other key are not sent. *)
Theorem X3_body_error_takes_precedence (L : Libs) (skipper : echo.Context → bool)
    (config : OpenapiB.Config) (router : routers.Router) (next : HandlerFunc)
    (c : echo.Context) (route : routers.Route) (pathParams : gmap string string)
    (me1 me2 : list error) (body : openapi3.RequestBody) (Reason : string)
    (Err : option error) (issues : Issues) :
  skipper c = false →
  check (echo.Path c) (http.Method (echo.Request c)) (OpenapiB.ExemptRoutes config)
  = false →
  FindRoute L router (echo.Request c) = inl (route, pathParams) →
  (∀ errs, Err ≠ Some (MultiError errs)) →
  ValidateRequest L (requestValidationInput (echo.Request c) route pathParams)
  = Some (MultiError (me1 ++ RequestError None (Some body) Reason Err :: me2)) →
  OpenapiB.convertError L (me1 ++ RequestError None (Some body) Reason Err :: me2)
  = Some issues →
  Error L (RequestError None (Some body) Reason Err) ∈ issues !!! "body"
  ∧ OpenapiB.serve L skipper config router next c
    = Return None
        (echo.record_all
           [CallFindRoute router;
            CallValidateRequest
              (requestValidationInput (echo.Request c) route pathParams);
            CallJSON 400
              {| Code := 400; Message := "Request error";
                 Errors := issues !!! "body" |}] c).
Proof.
  intros Hskip Hcheck Hfind Hne Hvalidate Hconv.
  assert (is_Some (issues !! "body")
          ∧ Error L (RequestError None (Some body) Reason Err) ∈ issues !!! "body")
    as [[val Hval] Hin].
  { unfold OpenapiB.convertError in Hconv. rewrite revB_loop_app in Hconv.
    destruct (OpenapiB.convertError_loop L ∅ me1) as [m1|]; [|done].
    cbn [OpenapiB.convertError_loop] in Hconv.
    rewrite revB_body_error in Hconv by done.
    apply revB_loop_extends in Hconv. destruct (Hconv "body") as [Hk Hp].
    split.
    - apply Hk. rewrite lookup_append_to, decide_True by done. eauto.
    - eapply elem_of_prefix; [|exact Hp].
      rewrite lookup_total_alt, lookup_append_to, decide_True by done. simpl.
      apply elem_of_app. right. by left. }
  split; [done|].
  unfold OpenapiB.serve. rewrite Hskip, Hcheck. cbn. rewrite Hfind.
  cbn -[requestValidationInput]. rewrite Hvalidate, Hconv, Hval.
  by rewrite (lookup_total_correct _ _ _ Hval).
Qed.

(** X4.  In the second revision a parameter error whose cause is [nil],
    anywhere among the raw errors, makes the conversion panic (the converter
    calls [Error()] on the cause), and with it the request. *)
Theorem X4_parameter_error_without_cause_panics (L : Libs)
    (skipper : echo.Context → bool) (config : OpenapiB.Config)
    (router : routers.Router) (next : HandlerFunc) (c : echo.Context)
    (route : routers.Route) (pathParams : gmap string string)
    (me1 me2 : list error) (p : openapi3.Param)
    (body : option openapi3.RequestBody) (Reason : string) :
  skipper c = false →
  check (echo.Path c) (http.Method (echo.Request c)) (OpenapiB.ExemptRoutes config)
  = false →
  FindRoute L router (echo.Request c) = inl (route, pathParams) →
  ValidateRequest L (requestValidationInput (echo.Request c) route pathParams)
  = Some (MultiError (me1 ++ RequestError (Some p) body Reason None :: me2)) →
  OpenapiB.convertError L (me1 ++ RequestError (Some p) body Reason None :: me2)
  = None
  ∧ OpenapiB.serve L skipper config router next c = Panic OpenapiB.nil_dereference.
Proof.
  intros Hskip Hcheck Hfind Hvalidate.
  assert (OpenapiB.convertError L
            (me1 ++ RequestError (Some p) body Reason None :: me2) = None) as Hconv.
  { unfold OpenapiB.convertError. rewrite revB_loop_app.
    by destruct (OpenapiB.convertError_loop L ∅ me1). }
  split; [done|].
  unfold OpenapiB.serve. rewrite Hskip, Hcheck. cbn. rewrite Hfind.
  cbn -[requestValidationInput]. by rewrite Hvalidate, Hconv.
Qed.

(** X5.  [check] answers [true] exactly when the table holds the path with a
    list of methods that contains the method, in whatever order the table is
    walked; in particular never for an empty table, a missing path or an
    empty list of methods. *)
Theorem X5_check_finds_the_pair_in_any_order (path method : string)
    (m : gmap string (list string)) (kvs : list (string * list string)) :
  kvs ≡ₚ map_to_list m →
  check_range path method kvs = check path method m
  ∧ (check path method m = true ↔ ∃ v, m !! path = Some v ∧ method ∈ v)
  ∧ (m !! path = None → check path method m = false)
  ∧ (m !! path = Some [] → check path method m = false).
Proof.
  intros Hp. split_and!.
  - by apply check_range_perm.
  - apply check_spec.
  - intros Hnone. apply not_true_is_false. rewrite check_spec.
    intros (v & ? & _). congruence.
  - intros Hnil. apply not_true_is_false. rewrite check_spec.
    intros (v & ? & Hin). simplify_eq. by apply elem_of_nil in Hin.
Qed.

(** ** A request that passes *)

Lemma OpenAPIWithConfig_key (L : Libs) (config : OpenapiA.Config) :
  ∃ config',
    OpenapiA.OpenAPIWithConfig L config
    = OpenapiA.serve L (default DefaultSkipper (OpenapiA.Skipper config)) config'
    ∧ OpenapiA.Schema config' = OpenapiA.Schema config
    ∧ OpenapiA.ExemptRoutes config' = OpenapiA.ExemptRoutes config
    ∧ OpenapiA.ContextKey config' = context_key (OpenapiA.ContextKey config).
Proof.
  unfold OpenapiA.OpenAPIWithConfig, context_key. case_decide; eauto 10.
Qed.

(** X6.  First revision: a request that passes validation reaches the next
    handler with the validation input it was validated with stored under the
    configured context key (under "validator" when none is configured);
    every other key of the store, the route pattern and the response are as
    they came, and the calls made are the set-up of the schema, the
    validation and the [Set]: nothing was written.  Nothing is said of the
    request behind the input after the validator has seen it. *)
Theorem X6_first_revision_stores_the_validation_input (L : Libs)
    (config : OpenapiA.Config) (next : HandlerFunc) (c : echo.Context)
    (schema : openapi3.T) (r : routers.Router) (route : routers.Route)
    (pathParams : gmap string string) :
  OpenapiA.resolves L config c schema r →
  FindRoute L r (echo.Request c) = inl (route, pathParams) →
  ValidateRequest L (requestValidationInput (echo.Request c) route pathParams)
  = None →
  ∃ c',
    OpenapiA.OpenAPIWithConfig L config next c = next c'
    ∧ echo.store c' !! context_key (OpenapiA.ContextKey config)
      = Some (echo.ValidationInput
                (requestValidationInput (echo.Request c) route pathParams))
    ∧ (∀ k, k ≠ context_key (OpenapiA.ContextKey config) →
            echo.store c' !! k = echo.store c !! k)
    ∧ echo.Path c' = echo.Path c
    ∧ echo.Response_ c' = echo.Response_ c
    ∧ echo.calls c'
      = echo.calls c
        ++ OpenapiA.setup_calls config schema r
        ++ [CallValidateRequest
              (requestValidationInput (echo.Request c) route pathParams);
            CallSet (context_key (OpenapiA.ContextKey config))].
Proof.
  intros (Hskip & Hcheck & Hload & Hval & Hrouter) Hfind Hvalidate.
  destruct (OpenAPIWithConfig_key L config) as (config' & -> & HS & HE & HK).
  unfold OpenapiA.serve. rewrite Hskip, HE, Hcheck, HS, Hload, Hval, Hrouter.
  cbn. rewrite Hfind. cbn -[requestValidationInput]. rewrite Hvalidate, HK.
  eexists. split; [reflexivity|]. cbn -[requestValidationInput]. split_and!.
  - apply lookup_insert_eq.
  - intros k Hk. by apply lookup_insert_ne.
  - done.
  - done.
  - by rewrite <-!(assoc_L (++)).
Qed.

(** ** Constructing the middleware of the second revision *)

(** The source the second revision loads from: the bytes when there are
    any, the file otherwise. *)
Lemma revB_construction (L : Libs) (config : OpenapiB.Config) (m : MiddlewareFunc) :
  OpenapiB.OpenAPIWithConfig L config = OpenapiB.Built m →
  ∃ schema router config',
    (if decide (OpenapiB.SchemaBytes config = EmptyString)
     then LoadFromFile L (OpenapiB.Schema config)
     else LoadFromData L (OpenapiB.SchemaBytes config)) = inl schema
    ∧ Validate L schema = None
    ∧ NewRouter L schema = inl router
    ∧ m = OpenapiB.serve L (default DefaultSkipper (OpenapiB.Skipper config))
            config' router
    ∧ OpenapiB.ExemptRoutes config' = OpenapiB.ExemptRoutes config
    ∧ OpenapiB.ContextKey config' = context_key (OpenapiB.ContextKey config).
Proof.
  unfold OpenapiB.OpenAPIWithConfig, context_key.
  destruct (bool_decide (_ = _) && _); [done|].
  set (config' := if decide (OpenapiB.ContextKey config = EmptyString) then _ else _).
  assert (OpenapiB.SchemaBytes config' = OpenapiB.SchemaBytes config
          ∧ OpenapiB.Schema config' = OpenapiB.Schema config
          ∧ OpenapiB.ExemptRoutes config' = OpenapiB.ExemptRoutes config
          ∧ OpenapiB.ContextKey config'
            = (if decide (OpenapiB.ContextKey config = EmptyString)
               then "validator" else OpenapiB.ContextKey config))
    as (-> & -> & HE & HK) by (subst config'; by case_decide).
  assert ((if bool_decide (0 < String.length (OpenapiB.SchemaBytes config))%nat
           then LoadFromData L (OpenapiB.SchemaBytes config)
           else LoadFromFile L (OpenapiB.Schema config))
          = (if decide (OpenapiB.SchemaBytes config = EmptyString)
             then LoadFromFile L (OpenapiB.Schema config)
             else LoadFromData L (OpenapiB.SchemaBytes config))) as ->.
  { destruct (OpenapiB.SchemaBytes config); [done|].
    by rewrite bool_decide_true, decide_False by (simpl; lia || done). }
  intros Hbuilt.
  destruct (if decide (OpenapiB.SchemaBytes config = EmptyString) then _ else _)
    as [schema|] eqn:Hload; [|done].
  destruct (Validate L schema) eqn:Hval; [done|].
  destruct (NewRouter L schema) as [router|] eqn:Hrouter; [|done].
  simplify_eq. exists schema, router, config'. by rewrite Hrouter.
Qed.

Lemma revB_built (L : Libs) (config : OpenapiB.Config) (schema : openapi3.T)
    (router : routers.Router) :
  ¬ (OpenapiB.Schema config = EmptyString
     ∧ OpenapiB.SchemaBytes config = EmptyString) →
  (if decide (OpenapiB.SchemaBytes config = EmptyString)
   then LoadFromFile L (OpenapiB.Schema config)
   else LoadFromData L (OpenapiB.SchemaBytes config)) = inl schema →
  Validate L schema = None →
  NewRouter L schema = inl router →
  ∃ config',
    OpenapiB.OpenAPIWithConfig L config
    = OpenapiB.Built
        (OpenapiB.serve L (default DefaultSkipper (OpenapiB.Skipper config))
           config' router)
    ∧ OpenapiB.ExemptRoutes config' = OpenapiB.ExemptRoutes config
    ∧ OpenapiB.ContextKey config' = context_key (OpenapiB.ContextKey config).
Proof.
  intros Hsrc Hload Hval Hrouter.
  unfold OpenapiB.OpenAPIWithConfig, context_key.
  destruct (bool_decide (_ = _) && _) eqn:E.
  { apply andb_true_iff in E as [HS HB].
    apply bool_decide_eq_true_1 in HS. apply bool_decide_eq_true_1 in HB.
    destruct Hsrc. split; [done|]. by destruct (OpenapiB.SchemaBytes config). }
  set (config' := if decide (OpenapiB.ContextKey config = EmptyString) then _ else _).
  assert (OpenapiB.SchemaBytes config' = OpenapiB.SchemaBytes config
          ∧ OpenapiB.Schema config' = OpenapiB.Schema config
          ∧ OpenapiB.ExemptRoutes config' = OpenapiB.ExemptRoutes config
          ∧ OpenapiB.ContextKey config'
            = (if decide (OpenapiB.ContextKey config = EmptyString)
               then "validator" else OpenapiB.ContextKey config))
    as (HB & HS & HE & HK)
    by (subst config';
        by destruct (decide (OpenapiB.ContextKey config = EmptyString))).
  rewrite HB, HS.
  assert ((if bool_decide (0 < String.length (OpenapiB.SchemaBytes config))%nat
           then LoadFromData L (OpenapiB.SchemaBytes config)
           else LoadFromFile L (OpenapiB.Schema config)) = inl schema) as ->.
  { destruct (OpenapiB.SchemaBytes config); [done|].
    by rewrite bool_decide_true by (simpl; lia). }
  rewrite Hval, Hrouter. eauto.
Qed.

(** X7.  Constructing the middleware of the second revision yields a
    middleware exactly when a source is configured and the document loads,
    validates and yields a router; the bytes are the source whenever there
    are any, whatever file is configured.  With no source (no file and no
    bytes) it panics before anything is loaded. *)
Theorem X7_construction_succeeds_exactly_when_the_schema_is_usable (L : Libs)
    (config : OpenapiB.Config) :
  ((∃ m, OpenapiB.OpenAPIWithConfig L config = OpenapiB.Built m)
   ↔ ¬ (OpenapiB.Schema config = EmptyString
        ∧ OpenapiB.SchemaBytes config = EmptyString)
     ∧ ∃ schema router,
         (if decide (OpenapiB.SchemaBytes config = EmptyString)
          then LoadFromFile L (OpenapiB.Schema config)
          else LoadFromData L (OpenapiB.SchemaBytes config)) = inl schema
         ∧ Validate L schema = None
         ∧ NewRouter L schema = inl router)
  ∧ (OpenapiB.Schema config = EmptyString
     ∧ OpenapiB.SchemaBytes config = EmptyString
     → OpenapiB.OpenAPIWithConfig L config
       = OpenapiB.Panicked "either schema or schemaBytes is required").
Proof.
  split; [split|].
  - intros [m Hm]. split.
    + intros [HS HB]. unfold OpenapiB.OpenAPIWithConfig in Hm.
      by rewrite HS, HB in Hm.
    + destruct (revB_construction L config m Hm)
        as (schema & router & ? & ? & ? & ? & _). eauto.
  - intros (Hsrc & schema & router & Hload & Hval & Hrouter).
    destruct (revB_built L config schema router Hsrc Hload Hval Hrouter)
      as (config' & -> & _). eauto.
  - intros [HS HB]. unfold OpenapiB.OpenAPIWithConfig. by rewrite HS, HB.
Qed.

(** X8.  Second revision: once the middleware is constructed, a request
    that passes validation reaches the next handler with the validation input
    it was validated with stored under the configured context key (under
    "validator" when none is configured); every other key of the store, the
    route pattern and the response are as they came, and the calls made are
    the route lookup, the validation and the [Set]: nothing was written or
    loaded on the way.  Nothing is said of the request behind the input
    after the validator has seen it. *)
Theorem X8_second_revision_stores_the_validation_input (L : Libs)
    (config : OpenapiB.Config) (schema : openapi3.T) (router : routers.Router)
    (next : HandlerFunc) (c : echo.Context) (route : routers.Route)
    (pathParams : gmap string string) :
  ¬ (OpenapiB.Schema config = EmptyString
     ∧ OpenapiB.SchemaBytes config = EmptyString) →
  (if decide (OpenapiB.SchemaBytes config = EmptyString)
   then LoadFromFile L (OpenapiB.Schema config)
   else LoadFromData L (OpenapiB.SchemaBytes config)) = inl schema →
  Validate L schema = None →
  NewRouter L schema = inl router →
  default DefaultSkipper (OpenapiB.Skipper config) c = false →
  check (echo.Path c) (http.Method (echo.Request c)) (OpenapiB.ExemptRoutes config)
  = false →
  FindRoute L router (echo.Request c) = inl (route, pathParams) →
  ValidateRequest L (requestValidationInput (echo.Request c) route pathParams)
  = None →
  ∃ m c',
    OpenapiB.OpenAPIWithConfig L config = OpenapiB.Built m
    ∧ m next c = next c'
    ∧ echo.store c' !! context_key (OpenapiB.ContextKey config)
      = Some (echo.ValidationInput
                (requestValidationInput (echo.Request c) route pathParams))
    ∧ (∀ k, k ≠ context_key (OpenapiB.ContextKey config) →
            echo.store c' !! k = echo.store c !! k)
    ∧ echo.Path c' = echo.Path c
    ∧ echo.Response_ c' = echo.Response_ c
    ∧ echo.calls c'
      = echo.calls c
        ++ [CallFindRoute router;
            CallValidateRequest
              (requestValidationInput (echo.Request c) route pathParams);
            CallSet (context_key (OpenapiB.ContextKey config))].
Proof.
  intros Hsrc Hload Hval Hrouter Hskip Hcheck Hfind Hvalidate.
  destruct (revB_built L config schema router Hsrc Hload Hval Hrouter)
    as (config' & -> & HE & HK).
  eexists _, _. split; [reflexivity|].
  unfold OpenapiB.serve. rewrite Hskip, HE, Hcheck. cbn. rewrite Hfind.
  cbn -[requestValidationInput]. rewrite Hvalidate, HK.
  split; [reflexivity|]. cbn -[requestValidationInput]. split_and!.
  - apply lookup_insert_eq.
  - intros k Hk. by apply lookup_insert_ne.
  - done.
  - done.
  - by rewrite <-!(assoc_L (++)).
Qed.

(** ** How a call can end *)

(** Closes one case of a classification: the outcome is read off, the calls
    made are collected, and the writes among them are computed. *)
Ltac close_outcome :=
  split_and!;
  [ reflexivity
  | unfold made; cbn; rewrite <-?(assoc_L (++)); reflexivity
  | reflexivity .. ].

Ltac classify :=
  first [ solve [left; eexists _, _; close_outcome]
        | solve [right; left; eexists _, _, _; close_outcome]
        | solve [right; right; eexists _, _, _; close_outcome] ].

(** X9.  The middleware of the first revision ends a request in one of
    three ways only: it hands it to the next handler, having written
    nothing; it returns an error, having written nothing; or it returns
    [nil] after exactly one write, the JSON answer of status 422 "Validation
    error".  It never writes any other status itself and never panics. *)
Theorem X9_first_revision_outcomes (L : Libs) (config : OpenapiA.Config)
    (next : HandlerFunc) (c : echo.Context) :
  (∃ c' added,
     OpenapiA.OpenAPIWithConfig L config next c = next c'
     ∧ made c c' added ∧ filter is_write added = [])
  ∨ (∃ err c' added,
       OpenapiA.OpenAPIWithConfig L config next c = Return (Some err) c'
       ∧ made c c' added ∧ filter is_write added = [])
  ∨ (∃ errors c' added,
       OpenapiA.OpenAPIWithConfig L config next c = Return None c'
       ∧ made c c' added
       ∧ filter is_write added
         = [CallJSON 422
              {| Code := 422; Message := "Validation error"; Errors := errors |}]).
Proof.
  destruct (OpenAPIWithConfig_serve L config) as (config' & -> & _ & _).
  unfold OpenapiA.serve.
  destruct (default _ _ c).
  { left. exists c, []. unfold made. by rewrite (right_id_L [] (++)). }
  destruct (check _ _ _).
  { left. exists c, []. unfold made. by rewrite (right_id_L [] (++)). }
  destruct (LoadFromFile L _) as [schema|err]; [|classify].
  destruct (Validate L schema) as [err|]; [classify|].
  destruct (NewRouter L schema) as [r|err]; [|classify].
  cbn. destruct (FindRoute L r _) as [[route pathParams]|err].
  - cbn -[requestValidationInput].
    destruct (ValidateRequest L _) as [err|]; [|classify].
    destruct err; classify.
  - destruct err; classify.
Qed.

(** X10.  The closure of the second revision ends a request in one of four
    ways only: it hands it to the next handler, having written nothing; it
    returns an error, having written nothing; it returns [nil] after exactly
    one write, a JSON answer of status 400 "Request error" or 422
    "Validation error"; or it panics in the converter.  On none of them does
    it load or validate the schema or build a router. *)
Theorem X10_second_revision_outcomes (L : Libs) (skipper : echo.Context → bool)
    (config : OpenapiB.Config) (router : routers.Router) (next : HandlerFunc)
    (c : echo.Context) :
  (∃ c' added,
     OpenapiB.serve L skipper config router next c = next c'
     ∧ made c c' added ∧ filter is_write added = [] ∧ filter is_setup added = [])
  ∨ (∃ err c' added,
       OpenapiB.serve L skipper config router next c = Return (Some err) c'
       ∧ made c c' added ∧ filter is_write added = []
       ∧ filter is_setup added = [])
  ∨ (∃ i c' added,
       OpenapiB.serve L skipper config router next c = Return None c'
       ∧ made c c' added ∧ filter is_write added = [i]
       ∧ filter is_setup added = []
       ∧ ((∃ errors,
             i = CallJSON 400
                   {| Code := 400; Message := "Request error"; Errors := errors |})
          ∨ (∃ errors,
               i = CallJSON 422
                     {| Code := 422; Message := "Validation error";
                        Errors := errors |})))
  ∨ OpenapiB.serve L skipper config router next c = Panic OpenapiB.nil_dereference.
Proof.
  unfold OpenapiB.serve.
  destruct (skipper c).
  { left. exists c, []. unfold made. by rewrite (right_id_L [] (++)). }
  destruct (check _ _ _).
  { left. exists c, []. unfold made. by rewrite (right_id_L [] (++)). }
  cbn. destruct (FindRoute L router _) as [[route pathParams]|err].
  - cbn -[requestValidationInput].
    destruct (ValidateRequest L _) as [err|]; [|classify].
    destruct err; try classify.
    destruct (OpenapiB.convertError L errs) as [issues|]; [|by do 3 right].
    destruct (issues !! "body") as [val|].
    + right; right; left. eexists _, _, _. split_and!;
        [ reflexivity
        | unfold made; cbn; rewrite <-?(assoc_L (++)); reflexivity
        | reflexivity | reflexivity | left; eauto ].
    + right; right; left. eexists _, _, _. split_and!;
        [ reflexivity
        | unfold made; cbn; rewrite <-?(assoc_L (++)); reflexivity
        | reflexivity | reflexivity | right; eauto ].
  - destruct (errors_Is L err ErrPathNotFound); [classify|].
    destruct (errors_Is L err ErrMethodNotAllowed); classify.
Qed.

(** ** The response helper, continued *)

(** One case of [X11]: the call ends in the write of the body. *)
Ltac written :=
  left; eexists _, _, _; split_and!;
  [ reflexivity
  | unfold made; cbn; rewrite <-?(assoc_L (++)); reflexivity
  | reflexivity
  | right; eauto ].

(** The cases of the switch on what [ValidateResponse] returned, in the
    second revision. *)
Ltac validated convertError :=
  match goal with
  | |- context [ValidateResponse ?L ?i] =>
      destruct (ValidateResponse L i) as [[? ?|? ? ? ?|? [[]|]|?| | |? ?|?|?]|]
  end;
  try (right; left; eexists _, _, _; close_outcome);
  try written;
  match goal with
  | |- context [convertError ?errs] =>
      destruct (convertError errs);
      [right; left; eexists _, _, _; close_outcome|by do 2 right]
  end.

(** X11.  Whatever Echo's writer does, both revisions of [validate] end in
    one of two ways (the second also by a panic of the converter): their
    last action is a write, [NoContent] or [Blob] with the status asked for
    and the handler's configured content type, no write was attempted
    before it and what the writer returns, [nil], an error or a panic, is
    what they return; or they return an error built by [fmt.Errorf] without
    having attempted a write.  So they attempt at most one write, do nothing
    after it, and never return [nil] without one.  With a writer that
    succeeds they are the functions of the sections on handler.go. *)
Theorem X11_validate_writes_once_or_fails (write : Call → echo.Context → Outcome)
    (L : Libs) (convertError : list error → option Issues)
    (hA : HandlerA.Handler) (hB : HandlerB.Handler) (c : echo.Context)
    (code : Z) (contentType : string) (v : any) :
  ((∃ w c1 added,
      WithWriter.validateA write L hA c code contentType v
      = write w (echo.record w c1)
      ∧ made c c1 added ∧ filter is_write added = []
      ∧ (w = CallNoContent code
         ∨ ∃ b, w = CallBlob code (HandlerA.ContentType (HandlerA.Config hA)) b))
   ∨ (∃ s c' added,
        WithWriter.validateA write L hA c code contentType v
        = Return (Some (errorString s)) c'
        ∧ made c c' added ∧ filter is_write added = []))
  ∧ ((∃ w c1 added,
        WithWriter.validateB write L convertError hB c code contentType v
        = write w (echo.record w c1)
        ∧ made c c1 added ∧ filter is_write added = []
        ∧ (w = CallNoContent code
           ∨ ∃ b, w = CallBlob code (HandlerB.ContentType (HandlerB.Config hB)) b))
     ∨ (∃ s c' added,
          WithWriter.validateB write L convertError hB c code contentType v
          = Return (Some (errorString s)) c'
          ∧ made c c' added ∧ filter is_write added = [])
     ∨ WithWriter.validateB write L convertError hB c code contentType v
       = Panic OpenapiB.nil_dereference)
  ∧ WithWriter.validateA WithWriter.succeeds L hA c code contentType v
    = HandlerA.validate L hA c code contentType v
  ∧ WithWriter.validateB WithWriter.succeeds L convertError hB c code contentType v
    = HandlerB.validate L convertError hB c code contentType v.
Proof.
  split_and!; [| |reflexivity..].
  - unfold WithWriter.validateA, WithWriter.NoContent, WithWriter.Blob.
    case_bool_decide.
    { left. exists (CallNoContent code), c, []. split_and!;
        [reflexivity|unfold made; by rewrite (right_id_L [] (++))
        |reflexivity|by left]. }
    cbn. destruct (echo.store c !! _) as [[input|]|];
      [|right; eexists _, _, _; close_outcome..].
    destruct (HasPrefix contentType HandlerA.ApplicationJSON);
      [|destruct (HasPrefix contentType HandlerA.ApplicationXML)].
    + destruct (json_Marshal L v) as [b|err];
        [|right; eexists _, _, _; close_outcome].
      cbn. destruct (ValidateResponse L _);
        [right; eexists _, _, _; close_outcome|written].
    + destruct (xml_Marshal L v) as [b|err];
        [|right; eexists _, _, _; close_outcome].
      cbn. destruct (ValidateResponse L _);
        [right; eexists _, _, _; close_outcome|written].
    + destruct v; cbn; (destruct (ValidateResponse L _);
        [right; eexists _, _, _; close_outcome|written]).
  - unfold WithWriter.validateB, WithWriter.NoContent, WithWriter.Blob.
    case_bool_decide.
    { left. exists (CallNoContent code), c, []. split_and!;
        [reflexivity|unfold made; by rewrite (right_id_L [] (++))
        |reflexivity|by left]. }
    cbn. destruct (echo.store c !! _) as [[input|]|];
      [|right; left; eexists _, _, _; close_outcome..].
    destruct (HasPrefix contentType HandlerB.ApplicationJSON).
    + destruct (json_Marshal L v) as [b|err];
        [|right; left; eexists _, _, _; close_outcome].
      cbn. validated convertError.
    + destruct v; [| |right; left; eexists _, _, _; close_outcome];
        cbn; validated convertError.
Qed.

(** X12.  Second revision, content type other than JSON: nothing is
    marshaled; a string or byte payload is validated as it is, under the
    header [Content-Type: text/plain] whatever content type was asked for,
    and written when it validates; a payload of any other type ends the call
    with the error "type ... not supported" before the response is
    validated. *)
Theorem X12_plain_payloads_pass_verbatim (L : Libs)
    (convertError : list error → option Issues) (h : HandlerB.Handler)
    (c : echo.Context) (code : Z) (contentType : string) (v : any)
    (input : openapi3filter.RequestValidationInput) :
  code ≠ http.StatusNoContent →
  echo.store c !! HandlerB.ValidatorKey (HandlerB.Config h)
  = Some (echo.ValidationInput input) →
  HasPrefix contentType HandlerB.ApplicationJSON = false →
  let c1 :=
    echo.Header_Add "Content-Type" echo.MIMETextPlain
      (echo.record (CallGet (HandlerB.ValidatorKey (HandlerB.Config h)))
         (echo.set_Status code c)) in
  (∀ s, v = any_string s ∨ v = any_bytes s →
        ValidateResponse L (HandlerB.responseValidationInput h input c1 s) = None →
        HandlerB.validate L convertError h c code contentType v
        = Return None
            (echo.record_all
               [CallValidateResponse (HandlerB.responseValidationInput h input c1 s);
                CallBlob code (HandlerB.ContentType (HandlerB.Config h)) s] c1))
  ∧ (∀ n, v = any_value n →
          HandlerB.validate L convertError h c code contentType v
          = Return (Some (errorString ("type " +:+ Sprint_s L v +:+ " not supported")))
              c1).
Proof.
  intros Hcode Hstore Hjson c1. unfold HandlerB.validate.
  rewrite bool_decide_false by done. cbn. rewrite Hstore, Hjson.
  split.
  - intros s [-> | ->] Hval; cbn -[echo.MIMETextPlain];
      change (echo.Header_Add _ _ _) with c1; by rewrite Hval.
  - by intros n ->.
Qed.

(** X13.  First revision, content type neither JSON nor XML: only a string
    payload is used; for a payload of any other type, bytes included, the
    body that is validated and written is empty. *)
Theorem X13_first_revision_drops_other_payloads (L : Libs) (h : HandlerA.Handler)
    (c : echo.Context) (code : Z) (contentType : string) (v : any)
    (input : openapi3filter.RequestValidationInput) :
  code ≠ http.StatusNoContent →
  echo.store c !! HandlerA.ValidatorKey (HandlerA.Config h)
  = Some (echo.ValidationInput input) →
  HasPrefix contentType HandlerA.ApplicationJSON = false →
  HasPrefix contentType HandlerA.ApplicationXML = false →
  let body := match v with any_string s => s | _ => EmptyString end in
  let c1 :=
    echo.Header_Add "Content-Type" contentType
      (echo.set_Status code
         (echo.record (CallGet (HandlerA.ValidatorKey (HandlerA.Config h))) c)) in
  ValidateResponse L (HandlerA.responseValidationInput h input c1 body) = None →
  HandlerA.validate L h c code contentType v
  = Return None
      (echo.record_all
         [CallValidateResponse (HandlerA.responseValidationInput h input c1 body);
          CallBlob code (HandlerA.ContentType (HandlerA.Config h)) body] c1).
Proof.
  intros Hcode Hstore Hjson Hxml body c1 Hval. unfold HandlerA.validate.
  rewrite bool_decide_false by done. cbn. rewrite Hstore, Hjson, Hxml.
  destruct v; cbn; fold c1; subst body; cbn in Hval; by rewrite Hval.
Qed.

(** X14.  When the payload cannot be marshaled to JSON, both revisions
    return the error "failed marshaling response: ..." with the text of the
    marshaling error; the response is not validated and nothing is
    written. *)
Theorem X14_marshaling_failure_is_returned (L : Libs)
    (convertError : list error → option Issues)
    (hA : HandlerA.Handler) (hB : HandlerB.Handler) (c : echo.Context)
    (code : Z) (contentType : string) (v : any)
    (inputA inputB : openapi3filter.RequestValidationInput) (err : error) :
  code ≠ http.StatusNoContent →
  echo.store c !! HandlerA.ValidatorKey (HandlerA.Config hA)
  = Some (echo.ValidationInput inputA) →
  echo.store c !! HandlerB.ValidatorKey (HandlerB.Config hB)
  = Some (echo.ValidationInput inputB) →
  HasPrefix contentType "application/json" = true →
  json_Marshal L v = inr err →
  HandlerA.validate L hA c code contentType v
  = Return (Some (errorString ("failed marshaling response: " +:+ Error L err)))
      (echo.record_all
         [CallGet (HandlerA.ValidatorKey (HandlerA.Config hA)); CallJSONMarshal v] c)
  ∧ HandlerB.validate L convertError hB c code contentType v
    = Return (Some (errorString ("failed marshaling response: " +:+ Error L err)))
        (echo.record (CallJSONMarshal v)
           (echo.Header_Add "Content-Type" contentType
              (echo.record (CallGet (HandlerB.ValidatorKey (HandlerB.Config hB)))
                 (echo.set_Status code c)))).
Proof.
  intros Hcode HA HB Hjson Hmarshal. unfold HandlerA.validate, HandlerB.validate.
  rewrite !bool_decide_false by done. cbn. rewrite HA, HB.
  unfold HandlerA.ApplicationJSON, HandlerB.ApplicationJSON,
    echo.MIMEApplicationJSON.
  rewrite Hjson. cbn. by rewrite Hmarshal.
Qed.

(** X15.  [NewHandlerWithConfig] of the second revision fills in an empty
    content type with "application/json" and an empty validator key with
    "validator", keeps every other field as given, never yields an empty
    content type or key, and applied to its own result changes nothing. *)
Theorem X15_handler_defaults (config : HandlerB.HandlerConfig) :
  let h := HandlerB.NewHandlerWithConfig config in
  HandlerB.ContentType (HandlerB.Config h)
  = (if decide (HandlerB.ContentType config = EmptyString)
     then "application/json" else HandlerB.ContentType config)
  ∧ HandlerB.ValidatorKey (HandlerB.Config h)
    = context_key (HandlerB.ValidatorKey config)
  ∧ HandlerB.ExcludeRequestBody (HandlerB.Config h)
    = HandlerB.ExcludeRequestBody config
  ∧ HandlerB.ExcludeResponseBody (HandlerB.Config h)
    = HandlerB.ExcludeResponseBody config
  ∧ HandlerB.IncludeResponseStatus (HandlerB.Config h)
    = HandlerB.IncludeResponseStatus config
  ∧ HandlerB.ContentType (HandlerB.Config h) ≠ EmptyString
  ∧ HandlerB.ValidatorKey (HandlerB.Config h) ≠ EmptyString
  ∧ HandlerB.NewHandlerWithConfig (HandlerB.Config h) = h.
Proof.
  destruct config as [ct key rb pb st]. unfold HandlerB.NewHandlerWithConfig,
    context_key. cbn.
  destruct (decide (ct = EmptyString)) as [->|Hct];
    destruct (decide (key = EmptyString)) as [->|Hkey]; cbn;
    split_and!; try done;
    repeat (case_decide; cbn); done.
Qed.

(** ** The middleware and the handler together *)

Lemma context_key_nonempty (configured : string) :
  context_key configured ≠ EmptyString.
Proof. unfold context_key. by case_decide. Qed.


(** X17.  First revision, end to end: when the handler's validator key is
    not the middleware's context key, and nothing else has stored a
    validation input under the handler's key, a request that passes
    validation still ends with the error "validator key is wrong type" and
    without a write.  The middleware's key is never empty, so a handler
    whose key was left empty is always in this case. *)
Theorem X17_mismatched_keys_end_in_an_error (L : Libs) (config : OpenapiA.Config)
    (h : HandlerA.Handler) (c : echo.Context) (schema : openapi3.T)
    (r : routers.Router) (route : routers.Route)
    (pathParams : gmap string string) (code : Z) (contentType : string)
    (v : any) :
  OpenapiA.resolves L config c schema r →
  FindRoute L r (echo.Request c) = inl (route, pathParams) →
  ValidateRequest L (requestValidationInput (echo.Request c) route pathParams)
  = None →
  HandlerA.ValidatorKey (HandlerA.Config h)
  ≠ context_key (OpenapiA.ContextKey config) →
  no_validation_input
    (echo.store c !! HandlerA.ValidatorKey (HandlerA.Config h)) →
  code ≠ http.StatusNoContent →
  context_key (OpenapiA.ContextKey config) ≠ EmptyString
  ∧ ∃ c' added,
      OpenapiA.OpenAPIWithConfig L config
        (λ c0, HandlerA.validate L h c0 code contentType v) c
      = Return (Some (errorString "validator key is wrong type")) c'
      ∧ made c c' added
      ∧ filter is_write added = [].
Proof.
  intros (Hskip & Hcheck & Hload & Hval & Hrouter) Hfind Hvalidate Hkey Hno Hcode.
  split; [apply context_key_nonempty|].
  destruct (OpenAPIWithConfig_key L config) as (config' & -> & HS & HE & HK).
  unfold OpenapiA.serve. rewrite Hskip, HE, Hcheck, HS, Hload, Hval, Hrouter.
  cbn. rewrite Hfind. cbn -[requestValidationInput]. rewrite Hvalidate, HK.
  unfold HandlerA.validate. rewrite bool_decide_false by done.
  cbn -[requestValidationInput]. rewrite lookup_insert_ne by done.
  destruct (echo.store c !! HandlerA.ValidatorKey _) as [[input|]|];
    [destruct (Hno input eq_refl)|..];
    (eexists _, _; split_and!;
     [ reflexivity
     | unfold made; cbn; rewrite <-?(assoc_L (++)); reflexivity
     | reflexivity ]).
Qed.

(** ** A field named [body] *)

Lemma extends_elem (m m' : Issues) (k x : string) :
  extends m m' → is_Some (m !! k) → x ∈ m !!! k →
  is_Some (m' !! k) ∧ x ∈ m' !!! k.
Proof.
  intros Hext Hk Hx. destruct (Hext k) as [Hsome Hprefix].
  split; [auto|]. by eapply elem_of_prefix.
Qed.

Lemma append_to_contains (m : Issues) (k x : string) (msgs : list string) :
  x ∈ msgs →
  is_Some (append_to m k msgs !! k) ∧ x ∈ append_to m k msgs !!! k.
Proof.
  intros Hx. rewrite lookup_total_alt, lookup_append_to, decide_True by done.
  split; [eauto|]. simpl. apply elem_of_app. by right.
Qed.

Lemma merge_range_contains (m : Issues) (kvs : list (string * list string))
    (k x : string) (v : list string) :
  (k, v) ∈ kvs → x ∈ v →
  is_Some (merge_range m kvs !! k) ∧ x ∈ merge_range m kvs !!! k.
Proof.
  revert m. induction kvs as [|[k' v'] kvs IH]; intros m Hin Hx.
  - by apply elem_of_nil in Hin.
  - apply elem_of_cons in Hin as [Heq|Hin].
    + injection Heq as <- <-. unfold merge_range. simpl.
      destruct (append_to_contains m k x v Hx) as [Hsome Helem].
      by eapply (extends_elem _ _ k x (extends_merge_range _ kvs)).
    + unfold merge_range. simpl. by apply IH.
Qed.

Lemma revB_loop_contains (L : Libs) (me1 me2 : list error) (err : error)
    (acc issues : Issues) (k x : string) :
  OpenapiB.convertError_loop L acc (me1 ++ err :: me2) = Some issues →
  (∀ m m', OpenapiB.convertError_step L m err = Some m' →
           is_Some (m' !! k) ∧ x ∈ m' !!! k) →
  is_Some (issues !! k) ∧ x ∈ issues !!! k.
Proof.
  intros Hloop Hstep. rewrite revB_loop_app in Hloop.
  destruct (OpenapiB.convertError_loop L acc me1) as [m1|]; [|done].
  cbn [OpenapiB.convertError_loop] in Hloop.
  destruct (OpenapiB.convertError_step L m1 err) as [m2|] eqn:E; [|done].
  destruct (Hstep _ _ E) as [Hsome Helem].
  by eapply (extends_elem m2 issues k x (revB_loop_extends L me2 m2 issues Hloop)).
Qed.

(** X18.  In the second revision the key [body] is also the key of a schema
    error whose JSON pointer joins to "body": a request whose body fails
    validation at a field named [body] is answered with status 400 "Request
    error" and only the messages filed under that key, the field's message
    among them, like a request whose body is missing. *)
Theorem X18_field_named_body_is_answered_400 (L : Libs)
    (skipper : echo.Context → bool) (config : OpenapiB.Config)
    (router : routers.Router) (next : HandlerFunc) (c : echo.Context)
    (route : routers.Route) (pathParams : gmap string string)
    (me1 me2 nested1 nested2 : list error) (body : option openapi3.RequestBody)
    (Reason : string) (path : list string) (why : string) (issues : Issues) :
  skipper c = false →
  check (echo.Path c) (http.Method (echo.Request c)) (OpenapiB.ExemptRoutes config)
  = false →
  FindRoute L router (echo.Request c) = inl (route, pathParams) →
  spec_schema_key path = "body" →
  let raw :=
    me1 ++ RequestError None body Reason
             (Some (MultiError (nested1 ++ SchemaError path why :: nested2)))
        :: me2 in
  ValidateRequest L (requestValidationInput (echo.Request c) route pathParams)
  = Some (MultiError raw) →
  OpenapiB.convertError L raw = Some issues →
  spec_schema_message path why ∈ issues !!! "body"
  ∧ OpenapiB.serve L skipper config router next c
    = Return None
        (echo.record_all
           [CallFindRoute router;
            CallValidateRequest
              (requestValidationInput (echo.Request c) route pathParams);
            CallJSON 400
              {| Code := 400; Message := "Request error";
                 Errors := issues !!! "body" |}] c).
Proof.
  intros Hskip Hcheck Hfind Hpath raw Hvalidate Hconv.
  assert (is_Some (issues !! "body")
          ∧ spec_schema_message path why ∈ issues !!! "body") as [[val Hval] Hin].
  { eapply (revB_loop_contains L me1 me2 _ ∅ issues); [exact Hconv|].
    intros m m' Hstep. rewrite revB_nested in Hstep.
    destruct (OpenapiB.convertError L (nested1 ++ _)) as [sub|] eqn:Esub;
      [|done].
    injection Hstep as <-.
    assert (is_Some (sub !! "body")
            ∧ spec_schema_message path why ∈ sub !!! "body") as [[vs Hvs] Hsub].
    { eapply (revB_loop_contains L nested1 nested2 _ ∅ sub); [exact Esub|].
      intros m0 m0' Hs. rewrite revB_schema_error, Hpath in Hs.
      injection Hs as <-. apply append_to_contains. by left. }
    apply (merge_range_contains m (map_to_list sub) "body" _ vs).
    - by apply elem_of_map_to_list.
    - by rewrite (lookup_total_correct _ _ _ Hvs) in Hsub. }
  split; [done|].
  unfold OpenapiB.serve. rewrite Hskip, Hcheck. cbn. rewrite Hfind.
  cbn -[requestValidationInput]. rewrite Hvalidate, Hconv, Hval.
  by rewrite (lookup_total_correct _ _ _ Hval).
Qed.

(** ** The further properties at concrete inputs *)

Lemma X2_witness :
  sorted_messages
    (default ∅ (OpenapiB.convertError Demo.libs Cases.parameter_and_body))
    (range_keys
       (default ∅ (OpenapiB.convertError Demo.libs Cases.parameter_and_body)))
  ≡ₚ Cases.parameter_and_body ≫= messagesB Demo.libs.
Proof.
  apply (X2_second_revision_keeps_each_message_once Demo.libs
           Cases.parameter_and_body).
  vm_compute; reflexivity.
Defined.

(** A missing body beside a bad path parameter: only the body is reported. *)
Lemma X3_witness :
  OpenapiB.serve
    (Cases.world (Some (MultiError Cases.parameter_and_body)) None (inl EmptyString))
    DefaultSkipper (Demo.configB Demo.fixture) (routers.RouterOf 0) Demo.ok
    Cases.post_validation
  = Return None
      (echo.record_all
         [CallFindRoute (routers.RouterOf 0);
          CallValidateRequest
            (requestValidationInput (Demo.request "POST" "/validation" "{}")
               (routers.RouteOf 4) ∅);
          CallJSON 400
            {| Code := 400; Message := "Request error";
               Errors := ["request body has an error: value is required but missing"] |}]
         Cases.post_validation).
Proof.
  refine (proj2 (X3_body_error_takes_precedence
            (Cases.world (Some (MultiError Cases.parameter_and_body)) None
               (inl EmptyString))
            DefaultSkipper (Demo.configB Demo.fixture) (routers.RouterOf 0) Demo.ok
            Cases.post_validation (routers.RouteOf 4) ∅
            [Demo.short_username] [] {| openapi3.Required := true |} EmptyString
            (Some (errorString "value is required but missing"))
            (default ∅ (OpenapiB.convertError Demo.libs Cases.parameter_and_body))
            _ _ _ _ _ _)).
  - reflexivity.
  - vm_compute; reflexivity.
  - vm_compute; reflexivity.
  - intros errs; discriminate.
  - reflexivity.
  - vm_compute; reflexivity.
Defined.

Lemma X4_witness :
  OpenapiB.serve
    (Cases.world (Some (MultiError [Demo.unsupported; Cases.without_cause])) None
       (inl EmptyString))
    DefaultSkipper (Demo.configB Demo.fixture) (routers.RouterOf 0) Demo.ok
    Cases.post_validation
  = Panic OpenapiB.nil_dereference.
Proof.
  refine (proj2 (X4_parameter_error_without_cause_panics
            (Cases.world (Some (MultiError [Demo.unsupported; Cases.without_cause]))
               None (inl EmptyString))
            DefaultSkipper (Demo.configB Demo.fixture) (routers.RouterOf 0) Demo.ok
            Cases.post_validation (routers.RouteOf 4) ∅
            [Demo.unsupported] []
            {| openapi3.Name := "limit"; openapi3.In := "query" |} None
            "value is required" _ _ _ _)).
  - reflexivity.
  - vm_compute; reflexivity.
  - vm_compute; reflexivity.
  - reflexivity.
Defined.

Lemma X5_witness :
  check "/exempt" "GET" {[ "/exempt" := ["GET"] ]} = true
  ∧ check "/exempt" "POST" {[ "/exempt" := ["GET"] ]} = false.
Proof.
  destruct (X5_check_finds_the_pair_in_any_order "/exempt" "GET"
              {[ "/exempt" := ["GET"] ]}
              (map_to_list ({[ "/exempt" := ["GET"] ]} : gmap string (list string)))
              (reflexivity _)) as (_ & Hiff & _).
  split.
  - apply Hiff. exists ["GET"]. split; [vm_compute; reflexivity|left].
  - vm_compute; reflexivity.
Defined.

Lemma X6_witness :
  ∃ c',
    OpenapiA.OpenAPIWithConfig Demo.libs (Demo.configA Demo.fixture) Demo.ok
      Cases.get_root = Demo.ok c'
    ∧ echo.store c' !! "validator"
      = Some (echo.ValidationInput
                (requestValidationInput (Demo.request "GET" "/" EmptyString)
                   (routers.RouteOf 0) ∅)).
Proof.
  destruct (X6_first_revision_stores_the_validation_input Demo.libs
              (Demo.configA Demo.fixture) Demo.ok Cases.get_root
              (openapi3.Doc 0) (routers.RouterOf 0) (routers.RouteOf 0) ∅)
    as (c' & Hrun & Hstore & _).
  - repeat split; vm_compute; reflexivity.
  - vm_compute; reflexivity.
  - vm_compute; reflexivity.
  - exists c'. split; [exact Hrun|exact Hstore].
Defined.

Lemma X7_witness :
  ∃ m, OpenapiB.OpenAPIWithConfig Demo.libs (Demo.configB Demo.fixture)
       = OpenapiB.Built m.
Proof.
  apply (X7_construction_succeeds_exactly_when_the_schema_is_usable Demo.libs
           (Demo.configB Demo.fixture)).
  split.
  - intros [Hfile _]. discriminate Hfile.
  - exists (openapi3.Doc 0), (routers.RouterOf 0).
    repeat split; vm_compute; reflexivity.
Defined.

Lemma X8_witness :
  ∃ m c',
    OpenapiB.OpenAPIWithConfig Demo.libs (Demo.configB Demo.fixture)
    = OpenapiB.Built m
    ∧ m Demo.ok Cases.get_root = Demo.ok c'
    ∧ echo.store c' !! "validator"
      = Some (echo.ValidationInput
                (requestValidationInput (Demo.request "GET" "/" EmptyString)
                   (routers.RouteOf 0) ∅)).
Proof.
  destruct (X8_second_revision_stores_the_validation_input Demo.libs
              (Demo.configB Demo.fixture) (openapi3.Doc 0) (routers.RouterOf 0)
              Demo.ok Cases.get_root (routers.RouteOf 0) ∅)
    as (m & c' & Hbuilt & Hrun & Hstore & _).
  - intros [Hfile _]. discriminate Hfile.
  - vm_compute; reflexivity.
  - reflexivity.
  - reflexivity.
  - reflexivity.
  - vm_compute; reflexivity.
  - vm_compute; reflexivity.
  - vm_compute; reflexivity.
  - exists m, c'. split_and!; [exact Hbuilt|exact Hrun|exact Hstore].
Defined.

(** The test of the string payload: "ok" as [text/plain] on [GET /text]. *)
Lemma X12_witness :
  ∃ c', HandlerB.validate (Cases.valid EmptyString)
          (OpenapiB.convertError (Cases.valid EmptyString))
          HandlerB.NewHandler Cases.validated_text 200 "text/plain" (any_string "ok")
        = Return None c'
        ∧ filter is_write (echo.calls c') = [CallBlob 200 "application/json" "ok"].
Proof.
  destruct (X12_plain_payloads_pass_verbatim (Cases.valid EmptyString)
              (OpenapiB.convertError (Cases.valid EmptyString)) HandlerB.NewHandler
              Cases.validated_text 200 "text/plain" (any_string "ok")
              Cases.text_input) as [Hplain _].
  - discriminate.
  - vm_compute; reflexivity.
  - vm_compute; reflexivity.
  - eexists. split.
    + apply (Hplain "ok"); [by left|reflexivity].
    + vm_compute; reflexivity.
Defined.

(** The first revision answers the byte payload of the tests with an empty
    body. *)
Lemma X13_witness :
  ∃ c', HandlerA.validate (Cases.valid EmptyString) HandlerA.NewHandler
          Cases.validated_text 200 "text/plain" (any_bytes "ok")
        = Return None c'
        ∧ filter is_write (echo.calls c')
          = [CallBlob 200 "application/json" EmptyString].
Proof.
  eexists. split.
  - apply (X13_first_revision_drops_other_payloads (Cases.valid EmptyString)
             HandlerA.NewHandler Cases.validated_text 200 "text/plain"
             (any_bytes "ok") Cases.text_input).
    + discriminate.
    + vm_compute; reflexivity.
    + vm_compute; reflexivity.
    + vm_compute; reflexivity.
    + reflexivity.
  - vm_compute; reflexivity.
Defined.

Lemma X14_witness :
  HandlerA.validate Demo.libs HandlerA.NewHandler Cases.validated_root 200
    "application/json" (any_value 1)
  = Return (Some (errorString
                    ("failed marshaling response: "
                     +:+ Demo.render (otherError 1))))
      (echo.record_all [CallGet "validator"; CallJSONMarshal (any_value 1)]
         Cases.validated_root).
Proof.
  refine (proj1 (X14_marshaling_failure_is_returned Demo.libs
            (OpenapiB.convertError Demo.libs) HandlerA.NewHandler
            HandlerB.NewHandler Cases.validated_root 200 "application/json"
            (any_value 1) Cases.root_input Cases.root_input (otherError 1)
            _ _ _ _ _)).
  - discriminate.
  - vm_compute; reflexivity.
  - vm_compute; reflexivity.
  - vm_compute; reflexivity.
  - vm_compute; reflexivity.
Defined.


(** A handler built from an empty configuration looks under the empty key,
    where the middleware never stores anything. *)
Lemma X17_witness :
  ∃ c' added,
    OpenapiA.OpenAPIWithConfig Demo.libs (Demo.configA Demo.fixture)
      (λ c0, HandlerA.validate Demo.libs Cases.bare_handler c0 200
               "application/json" (any_value 0))
      Cases.get_root
    = Return (Some (errorString "validator key is wrong type")) c'
    ∧ made Cases.get_root c' added
    ∧ filter is_write added = [].
Proof.
  apply (X17_mismatched_keys_end_in_an_error Demo.libs (Demo.configA Demo.fixture)
           Cases.bare_handler Cases.get_root (openapi3.Doc 0) (routers.RouterOf 0)
           (routers.RouteOf 0) ∅ 200 "application/json" (any_value 0)).
  - repeat split; vm_compute; reflexivity.
  - vm_compute; reflexivity.
  - vm_compute; reflexivity.
  - vm_compute; discriminate.
  - intros input; vm_compute; discriminate.
  - discriminate.
Defined.

(** A JSON field called [body] with a wrong value: answered 400, not 422. *)
Lemma X18_witness :
  OpenapiB.serve
    (Cases.world (Some (MultiError Cases.field_named_body)) None (inl EmptyString))
    DefaultSkipper (Demo.configB Demo.fixture) (routers.RouterOf 0) Demo.ok
    Cases.post_validation
  = Return None
      (echo.record_all
         [CallFindRoute (routers.RouterOf 0);
          CallValidateRequest
            (requestValidationInput (Demo.request "POST" "/validation" "{}")
               (routers.RouteOf 4) ∅);
          CallJSON 400
            {| Code := 400; Message := "Request error";
               Errors := ["body: value must be a string"] |}]
         Cases.post_validation).
Proof.
  refine (proj2 (X18_field_named_body_is_answered_400
            (Cases.world (Some (MultiError Cases.field_named_body)) None
               (inl EmptyString))
            DefaultSkipper (Demo.configB Demo.fixture) (routers.RouterOf 0) Demo.ok
            Cases.post_validation (routers.RouteOf 4) ∅
            [] [] [] [] (Some {| openapi3.Required := true |})
            "doesn't match schema" ["body"] "value must be a string"
            (default ∅ (OpenapiB.convertError Demo.libs Cases.field_named_body))
            _ _ _ _ _ _)).
  - reflexivity.
  - vm_compute; reflexivity.
  - vm_compute; reflexivity.
  - vm_compute; reflexivity.
  - reflexivity.
  - vm_compute; reflexivity.
Defined.
